(** * Prosjektoversikt: the data adapter and the status column

    A shallow embedding of
    - [projectOverview/data-adapter/index.ts] (class [DataAdapter]) and
    - [projectOverview/components/StatusColumn/index.tsx] (component
      [StatusColumn]),
    followed by the properties proved about them.

    JavaScript objects that the code uses as dictionaries are finite maps
    over their own properties, read and assigned to through
    [Object.prototype] as plain objects are; arrays are lists, strings
    are the bytes of their UTF-8 encoding, [async] functions are
    computations in a state-and-exception monad over the adapter's fields,
    and a pending request is a promise that records when and how it
    settles. *)

From Stdlib Require Import ZArith Ascii String.
From stdpp Require Import base option list strings pretty gmap fin_maps sorting.

Local Open Scope string_scope.
Local Open Scope list_scope.

(** * Part I: the embedding *)

(** ** JavaScript values, arrays and promises *)

Module JS.

(** The exceptions that travel through the adapter: the two that the
    adapter's own code can raise, and whatever a request is rejected
    with. *)
Inductive error :=
| TypeError
| ValueError (message : string)
| RequestError (status : Z) (message : string).

(** The values of the web part's property bag; its numbers are counts
    of pixels. *)
Inductive value :=
| Undefined
| Null
| Bool (b : bool)
| Num (z : Z)
| NaN
| Str (s : string).

(** ToBoolean. *)
Definition truthy (v : value) : bool :=
  match v with
  | Undefined | Null | NaN => false
  | Bool b => b
  | Num z => negb (z =? 0)%Z
  | Str s => negb (String.eqb s "")
  end.

(** [a || b] *)
Definition or (a b : value) : value := if truthy a then a else b.

(** ToBoolean of a string that may be [undefined] (a missing property). *)
Definition truthy_string (o : option string) : bool :=
  match o with
  | Some s => negb (String.eqb s "")
  | None => false
  end.

(** The names of the properties that a plain object inherits from
    [Object.prototype], as the language defines that object, with the
    legacy accessors that browsers have. Each of them holds a function,
    except [__proto__], an accessor that gives the prototype itself. *)
Definition object_prototype : list string :=
  ["constructor"; "hasOwnProperty"; "isPrototypeOf"; "propertyIsEnumerable";
   "toLocaleString"; "toString"; "valueOf"; "__proto__";
   "__defineGetter__"; "__defineSetter__"; "__lookupGetter__"; "__lookupSetter__"].

Definition inherited (k : string) : bool := existsb (String.eqb k) object_prototype.

(** What [obj[k]] evaluates to on a plain object whose own properties
    hold values of [A]: the own property of that name, else the member
    of [Object.prototype] of that name, else [undefined]. *)
Inductive property (A : Type) :=
| Own (a : A)
| Inherited (k : string)
| Missing.
Arguments Own {A} _.
Arguments Inherited {A} _.
Arguments Missing {A}.

(** [obj[k]] *)
Definition get {A} (obj : gmap string A) (k : string) : property A :=
  match obj !! k with
  | Some a => Own a
  | None => if inherited k then Inherited k else Missing
  end.

(** ToBoolean of what [obj[k]] gives on an object of strings: functions
    and objects are truthy. *)
Definition truthy_property (p : property string) : bool :=
  match p with
  | Own s => negb (String.eqb s "")
  | Inherited _ => true
  | Missing => false
  end.

(** [obj[k] = v] on a plain object, for a string [v]: an own property is
    overwritten or created, except that without an own property of that
    name the name [__proto__] reaches the setter of [Object.prototype],
    which ignores a value that is neither an object nor [null]. *)
Definition put (obj : gmap string string) (k v : string) : gmap string string :=
  match obj !! k with
  | Some _ => <[k := v]> obj
  | None => if String.eqb k "__proto__" then obj else <[k := v]> obj
  end.

(** [Array.prototype.reduce] with an initial value. *)
Definition reduce {A B} (f : B -> A -> B) (init : B) (xs : list A) : B :=
  fold_left f xs init.

(** [Array.prototype.filter] and underscore's [filter]: walk the array
    and push the elements that pass. *)
Definition filter {A} (p : A -> bool) (xs : list A) : list A :=
  fold_left (fun results x => if p x then results ++ [x] else results) xs [].

(** [Array.prototype.map] and underscore's [map]. *)
Definition map {A B} (f : A -> B) (xs : list A) : list B :=
  fold_left (fun results x => results ++ [f x]) xs [].

(** A promise, seen from the moment it is created: the number of ticks
    after which it settles, and what it settles to. *)
Record promise (A : Type) := Promise {
  settles : nat;
  outcome : error + A;
}.
Arguments Promise {A} _ _.
Arguments settles {A} _.
Arguments outcome {A} _.

Definition then_ {A B} (f : A -> B) (p : promise A) : promise B :=
  Promise (settles p)
          (match outcome p with inl e => inl e | inr a => inr (f a) end).

(** [Promise.all] of two promises: resolved once both are, rejected as
    soon as one of them is, with that one's error. *)
Definition all2 {A B} (p : promise A) (q : promise B) : promise (A * B) :=
  match outcome p, outcome q with
  | inr a, inr b => Promise (settles p `max` settles q) (inr (a, b))
  | inl e, inr _ => Promise (settles p) (inl e)
  | inr _, inl e => Promise (settles q) (inl e)
  | inl e1, inl e2 =>
      if decide (settles p <= settles q)
      then Promise (settles p) (inl e1)
      else Promise (settles q) (inl e2)
  end.

End JS.

(** ** The [string-format] package

    [format(template, ...args)] is
    [template.replace(/([{}])\1|[{](.*?)(?:!(.+?))?[}]/g, callback)]:
    a doubled brace is a literal brace, [{key}] is a replacement field,
    [{key!name}] a field with a transformer, and every other character
    is copied. *)

Module StringFormat.
Import JS.

Definition is_line_terminator (c : ascii) : bool :=
  (Ascii.eqb c "010" || Ascii.eqb c "013")%char.

(** What the dot of a regular expression does not match: a line feed, a
    carriage return, or one of the separators U+2028 and U+2029, whose
    UTF-8 encodings are the bytes 226 128 168 and 226 128 169. *)
Definition line_terminator_ahead (s : string) : bool :=
  match s with
  | String c s' =>
      is_line_terminator c
      || match s' with
         | String c2 (String c3 _) =>
             (Ascii.eqb c "226" && Ascii.eqb c2 "128"
              && (Ascii.eqb c3 "168" || Ascii.eqb c3 "169"))%char
         | _ => false
         end
  | EmptyString => false
  end.

Definition is_brace (c : ascii) : bool :=
  (Ascii.eqb c "{" || Ascii.eqb c "}")%char.

(** The shortest run of characters of one line that ends at a closing
    brace, with what follows that brace. *)
Fixpoint until_brace (s : string) : option (string * string) :=
  match s with
  | EmptyString => None
  | String c s' =>
      if Ascii.eqb c "}" then Some ("", s')
      else if line_terminator_ahead (String c s') then None
      else match until_brace s' with
           | Some (k, r) => Some (String c k, r)
           | None => None
           end
  end.

(** [(.+?)[}]] after the exclamation mark: at least one character. *)
Definition transformer (s : string) : option (string * string) :=
  match s with
  | EmptyString => None
  | String c s' =>
      if line_terminator_ahead (String c s') then None
      else match until_brace s' with
           | Some (k, r) => Some (String c k, r)
           | None => None
           end
  end.

(** [(.*?)(?:!(.+?))?[}]] after the opening brace: the key, the
    transformer if there is one, and the rest of the template. *)
Fixpoint field (s : string) : option (string * option string * string) :=
  match s with
  | EmptyString => None
  | String c s' =>
      if Ascii.eqb c "}" then Some ("", None, s')
      else if line_terminator_ahead (String c s') then None
      else
        let longer :=
          match field s' with
          | Some (k, xf, r) => Some (String c k, xf, r)
          | None => None
          end in
        if Ascii.eqb c "!" then
          match transformer s' with
          | Some (xf, r) => Some ("", Some xf, r)
          | None => longer
          end
        else longer
  end.

(** A string in which no brace occurs. *)
Fixpoint brace_free (s : string) : bool :=
  match s with
  | EmptyString => true
  | String c s' => negb (is_brace c) && brace_free s'
  end.

Inductive numbering := UNDEFINED | IMPLICIT | EXPLICIT.

Definition is_digit (c : ascii) : bool :=
  (48 <=? nat_of_ascii c)%nat && (nat_of_ascii c <=? 57)%nat.

(** [/^\d+$/.test(s)] *)
Definition all_digits (s : string) : bool :=
  negb (String.eqb s "") && forallb is_digit (list_ascii_of_string s).

Definition digits_value (s : string) : nat :=
  fold_left (fun n c => 10 * n + (nat_of_ascii c - 48))
            (list_ascii_of_string s) 0.

(** An array index as a property name: a decimal numeral without
    leading zeros. *)
Definition array_index (s : string) : option nat :=
  if all_digits s then
    match s with
    | String "0" (String _ _) => None
    | _ => Some (digits_value s)
    end
  else None.

(** [key.split('.')] *)
Fixpoint split_dots (s : string) : list string :=
  match s with
  | EmptyString => [""]
  | String c s' =>
      if Ascii.eqb c "." then "" :: split_dots s'
      else match split_dots s' with
           | p :: ps => String c p :: ps
           | [] => [String c ""]
           end
  end.

(** The double quote, as a string. *)
Definition quote : string := String (ascii_of_nat 34) EmptyString.

Section Format.
(** What a property path evaluates to on an argument ([length], an
    index, a method that gets called, ...), rendered as a string; the
    empty string when the path leads nowhere. The string and number
    objects of the runtime decide this, not the package. *)
Variable property_path : string -> list string -> error + string.

Definition lookup (args : list string) (key : string) : error + string :=
  let path := split_dots key in
  let path := match path with
              | p :: _ => if all_digits p then path else "0" :: path
              | [] => path
              end in
  match path with
  | [] => inr ""
  | p :: ps =>
      match array_index p with
      | None => inr ""
      | Some i =>
          match args !! i with
          | None => inr ""
          | Some x => match ps with [] => inr x | _ => property_path x ps end
          end
      end
  end.

(** The callback of [replace] on a replacement field. *)
Definition replacement (args : list string) (st : numbering * nat)
    (key : string) (xf : option string)
  : error + (string * (numbering * nat)) :=
  let '(state, idx) := st in
  let numbered :=
    if negb (String.eqb key "") then
      match state with
      | IMPLICIT =>
          inl (ValueError "cannot switch from implicit to explicit numbering")
      | _ => inr (key, (EXPLICIT, idx))
      end
    else
      match state with
      | EXPLICIT =>
          inl (ValueError "cannot switch from explicit to implicit numbering")
      | _ => inr (pretty idx, (IMPLICIT, S idx))
      end in
  match numbered with
  | inl e => inl e
  | inr (key, st') =>
      match lookup args key with
      | inl e => inl e
      | inr v =>
          match xf with
          | None => inr (v, st')
          | Some name =>
              inl (ValueError ("no transformer named " +:+ quote +:+ name +:+ quote))
          end
      end
  end.

(** The scan of [replace]. [skip] counts the characters of the match
    in progress that are still to be passed over. *)
Fixpoint scan (args : list string) (skip : nat) (st : numbering * nat)
    (s : string) : error + string :=
  match s with
  | EmptyString => inr ""
  | String c s' =>
      match skip with
      | S n => scan args n st s'
      | O =>
          let copy :=
            match scan args 0 st s' with
            | inl e => inl e
            | inr out => inr (String c out)
            end in
          if is_brace c then
            match s' with
            | String c' _ =>
                if Ascii.eqb c c' then
                  match scan args 1 st s' with
                  | inl e => inl e
                  | inr out => inr (String c out)
                  end
                else if Ascii.eqb c "{" then
                  match field s' with
                  | None => copy
                  | Some (key, xf, rest) =>
                      match replacement args st key xf with
                      | inl e => inl e
                      | inr (v, st') =>
                          match scan args (String.length s' - String.length rest) st' s' with
                          | inl e => inl e
                          | inr out => inr (v +:+ out)
                          end
                      end
                  end
                else copy
            | EmptyString => copy
            end
          else copy
      end
  end.

Definition format (template : string) (args : list string) : error + string :=
  scan args 0 (UNDEFINED, 0) template.

End Format.
End StringFormat.

(** ** The data adapter *)

Module PortfolioColumn.
(** The expanded lookup [GtPortfolioColumn] of a configuration item. *)
Record t := { Title : string; GtInternalName : string }.
End PortfolioColumn.

Module SiteResult.
(** A search result with the selected properties. *)
Record t := { SiteId : string; Title : string }.
End SiteResult.

Module Term.
(** A term of the term store: the two properties the adapter reads and
    all the others. *)
Record t := {
  Name : string;
  LocalCustomProperties : gmap string string;
  others : gmap string string;
}.
End Term.

Module Phase.
(** [pick(term, 'Name', 'LocalCustomProperties')] *)
Record t := { Name : string; LocalCustomProperties : gmap string string }.
End Phase.

Record IPortfolioColumnConfigurationItem := {
  GtPortfolioColumnColor : string;
  GtPortfolioColumnValue : string;
  GtPortfolioColumn : PortfolioColumn.t;
}.

(** An entry of the object that [getColumnConfigurations] builds; a
    property that was never assigned is [None]. *)
Record ColumnConfiguration := {
  name : option string;
  colors : option (gmap string string);
}.

(** A section of a project status as [StatusColumn] reads it. *)
Record StatusSection := {
  fieldName : string;
  iconName : string;
  color : string;
}.

(** The item interfaces and the model classes [ProjectStatusModel] and
    [ProjectModel] of [../models] are declared outside the two files
    embedded here and are parameters of the embedding. Only the members
    that these two files use are listed, and nothing is assumed about
    what the constructors and [setTitle] compute, except that [setTitle]
    returns a project. [setTitle] is given whatever reading the object
    of the hub's sites gives. *)
Class Models := {
  IProjectItem : Type;
  GtSiteId : IProjectItem -> string;
  IProjectStatusItem : Type;
  Id : IProjectStatusItem -> Z;
  IStatusSectionItem : Type;
  ProjectStatusModel : Type;
  newProjectStatusModel :
    IProjectStatusItem -> gmap string ColumnConfiguration ->
    list IStatusSectionItem -> ProjectStatusModel;
  status_siteId : ProjectStatusModel -> string;
  sections : ProjectStatusModel -> list StatusSection;
  ProjectModel : Type;
  newProjectModel : IProjectItem -> list ProjectStatusModel -> ProjectModel;
  project_siteId : ProjectModel -> string;
  setTitle : ProjectModel -> JS.property string -> ProjectModel;
}.

(** The constants of [../config], parameters as well. *)
Class Config := {
  CONFIG_LIST_NAME : string;
  PHASE_FIELD_NAME : string;
  PROJECTS_LIST_NAME : string;
  PROJECT_COLUMN_CONFIGURATION_LIST_NAME : string;
  PROJECT_STATUS_LIST_NAME : string;
  STATUS_SECTIONS_LIST_NAME : string;
}.

(** Modelled from the spec: the [Portfolio] model of [../models], of which
    the adapter reads [id] and [url]. The id is kept as the string it is
    rendered to, which is all that the cache key uses of it. *)
Record Portfolio := { id : string; url : string }.

Record ICachingOptions := { expiration : Z; key : string }.

(** The query options of a list's [items] collection. *)
Record ItemsQuery (A : Type) := {
  q_select : list string;
  q_expand : list string;
  q_filter : option (A -> bool);
  q_orderBy : option ((A -> Z) * bool);
  q_top : nat;
  q_caching : option ICachingOptions;
}.
Arguments q_select {A} _.
Arguments q_expand {A} _.
Arguments q_filter {A} _.
Arguments q_orderBy {A} _.
Arguments q_top {A} _.
Arguments q_caching {A} _.

Record SearchQuery := {
  Querytext : string;
  TrimDuplicates : bool;
  RowLimit : nat;
  SelectProperties : list string;
}.

Module DataAdapter.
Import JS.

(** The private fields of the class. *)
Record state := {
  cacheOptions : option ICachingOptions;
  site : option string;
  current : option Portfolio;
  cacheKeys : list string;
}.

(** [new DataAdapter()] *)
Definition initial : state :=
  {| cacheOptions := None; site := None; current := None; cacheKeys := [] |}.

(** Computations over the fields that may throw. A field assigned
    before the exception stays assigned. *)
Definition M (A : Type) : Type := state -> (error + A) * state.

Definition ret {A} (a : A) : M A := fun st => (inr a, st).

Definition throw {A} (e : error) : M A := fun st => (inl e, st).

Definition bind {A B} (m : M A) (k : A -> M B) : M B :=
  fun st =>
    match m st with
    | (inr a, st') => k a st'
    | (inl e, st') => (inl e, st')
    end.

Notation "'let*' x ':=' m 'in' k" := (bind m (fun x => k))
  (at level 10, x pattern, m at level 100, k at level 200).

(** [await p] *)
Definition await {A} (p : promise A) : M A := fun st => (outcome p, st).

(** The call of an [async] function up to its first [await]: an
    exception raised on the way is the rejection of the promise that
    the call returns. *)
Definition async {A} (body : M (promise A)) : M (promise A) :=
  fun st =>
    match body st with
    | (inl e, st') => (inr (Promise 0 (inl e)), st')
    | r => r
    end.

Definition read {A} (f : state -> option A) : M A :=
  fun st => match f st with Some a => (inr a, st) | None => (inl TypeError, st) end.

Definition set_current (config : Portfolio) : M unit :=
  fun st => (inr tt, {| cacheOptions := cacheOptions st; site := site st;
                        current := Some config; cacheKeys := cacheKeys st |}).

Definition set_site (u : string) : M unit :=
  fun st => (inr tt, {| cacheOptions := cacheOptions st; site := Some u;
                        current := current st; cacheKeys := cacheKeys st |}).

Definition push_cacheKey (k : string) : M unit :=
  fun st => (inr tt, {| cacheOptions := cacheOptions st; site := site st;
                        current := current st; cacheKeys := cacheKeys st ++ [k] |}).

(** [usingCaching({ expiration, alias })] *)
Definition usingCaching (expiration : Z) (alias : string) (st : state) : state :=
  {| cacheOptions := Some {| expiration := expiration; key := alias +:+ "_{0}_{1}" |};
     site := site st; current := current st; cacheKeys := cacheKeys st |}.

Section Adapter.
Context `{Models} `{Config}.
Variable property_path : string -> list string -> error + string.

(** The requests. Each one is given by the promise that issuing it
    returns in the run at hand, whether the client library answers it
    from the server or from the cache entry under the key of its caching
    options; a list is given by its rows, which the query options then
    filter, order and truncate. The cache itself, and with it what a
    request under another key or at another time would be answered, is
    not part of the embedding. *)
Record Platform := {
  site_Id : string -> promise string;
  field_TermSetId : string -> promise string;
  search_hits : string -> bool -> promise (list SiteResult.t);
  projects_rows : string -> string -> promise (list IProjectItem);
  status_rows : string -> string -> promise (list IProjectStatusItem);
  column_rows : string -> string -> promise (list IPortfolioColumnConfigurationItem);
  section_rows : string -> string -> promise (list IStatusSectionItem);
  term_set_terms : string -> promise (list Term.t);
}.

Variable sp : Platform.

Definition order_rows {A} (by_ : (A -> Z) * bool) (rows : list A) : list A :=
  let '(f, ascending) := by_ in
  if ascending
  then merge_sort (fun x y => (f x <= f y)%Z)
                  (H := fun x y => decide (f x <= f y)%Z) rows
  else merge_sort (fun x y => (f y <= f x)%Z)
                  (H := fun x y => decide (f y <= f x)%Z) rows.

(** [$filter], [$orderby] and [$top] on the rows of a list. *)
Definition run_query {A} (q : ItemsQuery A) (rows : list A) : list A :=
  let rows := match q_filter q with Some p => List.filter p rows | None => rows end in
  let rows := match q_orderBy q with Some o => order_rows o rows | None => rows end in
  take (q_top q) rows.

(** [list.items. ... .get()] *)
Definition items_get {A} (q : ItemsQuery A) (rows : promise (list A)) : promise (list A) :=
  then_ (run_query q) rows.

(** [sp.search(query)], resolved to its [PrimarySearchResults]. *)
Definition search (q : SearchQuery) : promise (list SiteResult.t) :=
  then_ (take (RowLimit q)) (search_hits sp (Querytext q) (TrimDuplicates q)).

(** [getCacheOptions(key)] *)
Definition getCacheOptions (k : string) : M ICachingOptions :=
  let* options := read cacheOptions in
  let* config := read current in
  match StringFormat.format property_path (key options) [id config; k] with
  | inl e => throw e
  | inr cacheKey =>
      let* _ := push_cacheKey cacheKey in
      ret {| expiration := expiration options; key := cacheKey |}
  end.

(** [getPhaseFieldTermSetId()], awaited where it is called. *)
Definition getPhaseFieldTermSetId : M string :=
  let* _ := getCacheOptions "phase_term_set_id" in
  await (field_TermSetId sp PHASE_FIELD_NAME).

Definition hub_query (siteId : string) : SearchQuery :=
  {| Querytext := "DepartmentId:{" +:+ siteId +:+ "} contentclass:STS_Site";
     TrimDuplicates := false;
     RowLimit := 500;
     SelectProperties := ["SiteId"; "Title"] |}.

(** [{ ...obj, [siteResult['SiteId']]: siteResult['Title'] }] *)
Definition add_site (obj : gmap string string) (siteResult : SiteResult.t)
  : gmap string string :=
  <[SiteResult.SiteId siteResult := SiteResult.Title siteResult]> obj.

(** What [searchSitesInHub(siteId)] does once the search has
    settled. *)
Definition sites_in_hub (siteId : string) : promise (gmap string string) :=
  then_ (reduce add_site ∅) (search (hub_query siteId)).

(** [searchSitesInHub(siteId)] *)
Definition searchSitesInHub (siteId : string) : M (promise (gmap string string)) :=
  async (ret (sites_in_hub siteId)).

(** The body of the reducer of [getColumnConfigurations], one
    assignment after the other. The keys are internal names that passed
    the filter of the query: they start with [GtStatus], so none of them
    names a property of [Object.prototype], and [obj[key]] is an own
    property or [undefined]; the same holds of [name] and [colors] on an
    entry. The values are arbitrary strings. *)
Definition add_column (obj : gmap string ColumnConfiguration)
    (item : IPortfolioColumnConfigurationItem) : gmap string ColumnConfiguration :=
  let k := PortfolioColumn.GtInternalName (GtPortfolioColumn item) in
  let entry := default {| name := None; colors := None |} (obj !! k) in
  let entry :=
    {| name := Some (if truthy_string (name entry)
                     then default "" (name entry)
                     else PortfolioColumn.Title (GtPortfolioColumn item));
       colors := colors entry |} in
  let entry := {| name := name entry; colors := Some (default ∅ (colors entry)) |} in
  let entry :=
    {| name := name entry;
       colors := Some (put (default ∅ (colors entry))
                           (GtPortfolioColumnValue item) (GtPortfolioColumnColor item)) |} in
  <[k := entry]> obj.

Definition starts_with_GtStatus (item : IPortfolioColumnConfigurationItem) : bool :=
  String.prefix "GtStatus" (PortfolioColumn.GtInternalName (GtPortfolioColumn item)).

(** The query of [getColumnConfigurations]; its filter is
    [startswith(GtPortfolioColumn/GtInternalName,'GtStatus')]. *)
Definition column_query (options : ICachingOptions)
  : ItemsQuery IPortfolioColumnConfigurationItem :=
  {| q_select := ["GtPortfolioColumnColor"; "GtPortfolioColumnValue";
                  "GtPortfolioColumn/Title"; "GtPortfolioColumn/GtInternalName"];
     q_expand := ["GtPortfolioColumn"];
     q_filter := Some starts_with_GtStatus;
     q_orderBy := None;
     q_top := 500;
     q_caching := Some options |}.

(** What [getColumnConfigurations()] does once the items have
    been fetched. *)
Definition column_configurations (u : string) (options : ICachingOptions)
  : promise (gmap string ColumnConfiguration) :=
  then_ (reduce add_column ∅)
        (items_get (column_query options)
                   (column_rows sp u PROJECT_COLUMN_CONFIGURATION_LIST_NAME)).

(** [getColumnConfigurations()] *)
Definition getColumnConfigurations : M (promise (gmap string ColumnConfiguration)) :=
  async (
    let* u := read site in
    let* options := getCacheOptions "column_configuration" in
    ret (column_configurations u options)).

Record IDataAdapterFetchResult := {
  projects : list ProjectModel;
  phases : list Phase.t;
}.

Definition projects_query (options : ICachingOptions) : ItemsQuery IProjectItem :=
  {| q_select := []; q_expand := []; q_filter := None; q_orderBy := None;
     q_top := 500; q_caching := Some options |}.

Definition status_query (options : ICachingOptions) : ItemsQuery IProjectStatusItem :=
  {| q_select := []; q_expand := []; q_filter := None;
     q_orderBy := Some (Id, false);
     q_top := 500; q_caching := Some options |}.

Definition sections_query (options : ICachingOptions) : ItemsQuery IStatusSectionItem :=
  {| q_select := ["GtSecFieldName"; "GtSecIcon"]; q_expand := [];
     q_filter := None; q_orderBy := None;
     q_top := 10; q_caching := Some options |}.

(** [filter(status, s => s.siteId === item.GtSiteId)] *)
Definition status_of (status : list ProjectStatusModel) (item : IProjectItem)
  : list ProjectStatusModel :=
  JS.filter (fun s => String.eqb (status_siteId s) (GtSiteId item)) status.

(** The callback of [_projects.map]; [None] is [null]. *)
Definition to_project (_sites : gmap string string)
    (status : list ProjectStatusModel) (item : IProjectItem) : option ProjectModel :=
  let project := newProjectModel item (status_of status item) in
  if negb (truthy_property (get _sites (project_siteId project))) then None
  else Some (setTitle project (get _sites (project_siteId project))).

(** [.filter(p => p)] on an array of objects and [null]s. *)
Definition compact {A} (xs : list (option A)) : list A :=
  fold_left (fun results p =>
               match p with Some x => results ++ [x] | None => results end) xs [].

(** [p.LocalCustomProperties.ShowOnFrontpage !== 'false'] *)
Definition show_on_frontpage (p : Term.t) : bool :=
  match Term.LocalCustomProperties p !! "ShowOnFrontpage" with
  | Some v => negb (String.eqb v "false")
  | None => true
  end.

(** [pick(p, 'Name', 'LocalCustomProperties')] *)
Definition pick_phase (p : Term.t) : Phase.t :=
  {| Phase.Name := Term.Name p;
     Phase.LocalCustomProperties := Term.LocalCustomProperties p |}.

(** [fetchData(config)]. The call of the logger leaves the fields and
    the result alone and is left out. The six elements of the array
    given to [Promise.all] are evaluated from left to right, which
    issues the requests and, through [getCacheOptions], records the
    cache keys; then the array is awaited. *)
Definition fetchData (config : Portfolio) : M IDataAdapterFetchResult :=
  let* _ := set_current config in
  let* cur := read current in
  let* _ := set_site (url cur) in
  let* u := read site in
  let* siteId := await (site_Id sp u) in
  let* _phaseTermSetId := getPhaseFieldTermSetId in
  let* u := read site in
  let* p_sites := searchSitesInHub siteId in
  let* o_projects := getCacheOptions "projects" in
  let p_projects :=
    items_get (projects_query o_projects) (projects_rows sp u PROJECTS_LIST_NAME) in
  let* o_status := getCacheOptions "project_status" in
  let p_status :=
    items_get (status_query o_status) (status_rows sp u PROJECT_STATUS_LIST_NAME) in
  let* p_columns := getColumnConfigurations in
  let* o_sections := getCacheOptions "status_sections" in
  let p_sections :=
    items_get (sections_query o_sections) (section_rows sp u STATUS_SECTIONS_LIST_NAME) in
  let p_phases := term_set_terms sp _phaseTermSetId in
  let* (_sites, (_projects, (_status, (_columnConfigurations, (_statusSections, _phases))))) :=
    await (all2 p_sites (all2 p_projects (all2 p_status
            (all2 p_columns (all2 p_sections p_phases))))) in
  let status :=
    JS.map (fun item => newProjectStatusModel item _columnConfigurations _statusSections)
           _status in
  let projects := compact (JS.map (to_project _sites status) _projects) in
  let phases := JS.map pick_phase (JS.filter show_on_frontpage _phases) in
  ret {| projects := projects; phases := phases |}.

End Adapter.
End DataAdapter.

(** ** The status column *)

Module StatusColumn.
Import JS.

(** [TooltipDelay] of the UI toolkit. *)
Inductive TooltipDelay := zero | medium | long.

(** Modelled from the spec: the web part properties that the component
    takes from [ProjectOverviewContext]; each may be missing from the
    property bag. *)
Record Properties := {
  showTooltip : value;
  columnIconGap : value;
  columnIconSize : value;
}.

(** [styles.root] of an icon. *)
Record IconStyle := {
  root_color : string;
  paddingRight : value;
  fontSize : value;
}.

Section Component.
Context `{Models}.

(** The elements that the component creates, with the props it gives
    them. *)
#[local] Unset Elimination Schemes.
Inductive element :=
| TooltipHost (hidden : bool) (onRenderContent : unit -> element)
    (delay closeDelay : TooltipDelay) (gapSpace : Z) (children : list element)
| FadeIn (className : string) (delay transitionDuration : Z)
    (children : list element)
| Icon (key iconName : string) (styles : IconStyle)
| StatusColumnTooltip (status : ProjectStatusModel).
#[local] Set Elimination Schemes.

(** The class name [styles.root] of the style sheet module. *)
Variable styles_root : string.

Definition StatusColumn (properties : Properties) (status : ProjectStatusModel)
  : element :=
  TooltipHost
    (negb (truthy (showTooltip properties)))
    (fun _ => StatusColumnTooltip status)
    long long 10
    [FadeIn styles_root 100 400
       (JS.map (fun s =>
                  Icon (fieldName s) (iconName s)
                       {| root_color := color s;
                          paddingRight := JS.or (columnIconGap properties) (Num 8);
                          fontSize := columnIconSize properties |})
               (sections status))].

(** Reading a rendered tree: the icons in document order, ... *)
Fixpoint icons (e : element) : list (string * string * IconStyle) :=
  match e with
  | TooltipHost _ _ _ _ _ children =>
      (fix all (es : list element) :=
         match es with [] => [] | e' :: es' => icons e' ++ all es' end) children
  | FadeIn _ _ _ children =>
      (fix all (es : list element) :=
         match es with [] => [] | e' :: es' => icons e' ++ all es' end) children
  | Icon k n st => [(k, n, st)]
  | StatusColumnTooltip _ => []
  end.

(** ... whether the outermost tooltip host is hidden, ... *)
Definition host_hidden (e : element) : option bool :=
  match e with
  | TooltipHost h _ _ _ _ _ => Some h
  | _ => None
  end.

(** ... what its tooltip renders, ... *)
Definition tooltip_content (e : element) : option element :=
  match e with
  | TooltipHost _ render _ _ _ _ => Some (render tt)
  | _ => None
  end.

(** ... and what it wraps. *)
Definition host_children (e : element) : list element :=
  match e with
  | TooltipHost _ _ _ _ _ children => children
  | _ => []
  end.

End Component.
End StatusColumn.

(** ** The vocabulary of the statements

    What is said about the adapter, as definitions of their own: what an
    entry of the column configuration holds, which project models are
    kept, and which requests are rejected. *)

Module Spec.

(** The first title that is not empty; the empty string when every
    title is. *)
Definition first_nonempty (titles : list string) : string :=
  default "" (head (filter (fun title => title <> "") titles)).

(** The name is the first non-empty title, and each value other than
    the name [__proto__] is mapped to the colour of the last item with
    that value. *)
Definition describes (its : list IPortfolioColumnConfigurationItem)
    (entry : ColumnConfiguration) : Prop :=
  name entry
  = Some (first_nonempty ((fun item => PortfolioColumn.Title (GtPortfolioColumn item)) <$> its))
  /\ exists c, colors entry = Some c /\
       forall v, v <> "__proto__" ->
                 c !! v
                 = GtPortfolioColumnColor
                     <$> last (filter (fun item => GtPortfolioColumnValue item = v) its).

(** What the colors of an entry hold as own properties: nothing under
    the name [__proto__], and under any other value the colour of the
    last item with that value. *)
Definition colours (its : list IPortfolioColumnConfigurationItem)
    (c : gmap string string) : Prop :=
  forall v, c !! v
            = if decide (v = "__proto__") then None
              else GtPortfolioColumnColor
                     <$> last (filter (fun item => GtPortfolioColumnValue item = v) its).

Section Requests.
Import JS DataAdapter.
Context `{Models} `{Config}.

(** A project model is kept when the map of the hub's sites has a
    non-empty title for its site id; it is then given that title. A
    model whose site id is no key of the map is kept as well when the id
    names a property that the map, a plain object, inherits from
    [Object.prototype]; it is then given that property. *)
Definition kept (_sites : gmap string string) (project : ProjectModel)
  : option ProjectModel :=
  match _sites !! project_siteId project with
  | Some title =>
      if decide (title = "") then None else Some (setTitle project (JS.Own title))
  | None =>
      if decide (project_siteId project ∈ JS.object_prototype)
      then Some (setTitle project (JS.Inherited (project_siteId project)))
      else None
  end.

(** When a request is rejected, and with which error. *)
Definition rejection {A} (p : promise A) : list (nat * error) :=
  match outcome p with
  | inl e => [(settles p, e)]
  | inr _ => []
  end.

(** The rejections among the requests that [fetchData] issues: the
    site first, the phase field once the site has answered, and the
    search, the four lists and the term set, all at once, when the
    field has answered too. A request that is not reached because an
    earlier one failed is not issued. *)
Definition rejections (sp : Platform) (config : Portfolio) : list (nat * error) :=
  match outcome (site_Id sp (url config)) with
  | inl e => rejection (site_Id sp (url config))
  | inr siteId =>
      match outcome (field_TermSetId sp PHASE_FIELD_NAME) with
      | inl e => rejection (field_TermSetId sp PHASE_FIELD_NAME)
      | inr tsid =>
          rejection (search_hits sp (Querytext (hub_query siteId))
                                    (TrimDuplicates (hub_query siteId)))
          ++ rejection (projects_rows sp (url config) PROJECTS_LIST_NAME)
          ++ rejection (status_rows sp (url config) PROJECT_STATUS_LIST_NAME)
          ++ rejection (column_rows sp (url config)
                          PROJECT_COLUMN_CONFIGURATION_LIST_NAME)
          ++ rejection (section_rows sp (url config) STATUS_SECTIONS_LIST_NAME)
          ++ rejection (term_set_terms sp tsid)
      end
  end.

(** [p] is rejected as soon as a request of [l] is: it is rejected
    when one of them is, with the error of one that is rejected
    first. *)
Definition rejected_first {A} (p : promise A) (l : list (nat * error)) : Prop :=
  (l <> [] -> rejection p <> []) /\
  forall x, x ∈ rejection p -> x ∈ l /\ forall y, y ∈ l -> fst x <= fst y.

(** The adapter has caching options whose key template can be
    formatted for the portfolio, so that [getCacheOptions] raises
    nothing of its own. *)
Definition configured (property_path : string -> list string -> error + string)
    (st : state) (config : Portfolio) : Prop :=
  exists options,
    cacheOptions st = Some options /\
    forall k, exists cacheKey,
      StringFormat.format property_path (key options) [id config; k] = inr cacheKey.
End Requests.

End Spec.

(** ** A small portfolio

    One concrete choice of the model classes, the constants and the
    requests, on which the definitions above can be run. *)

Module Sample.
Import JS.

Definition models : Models :=
  {| IProjectItem := string;
     GtSiteId := fun item => item;
     IProjectStatusItem := Z * string;
     Id := fst;
     IStatusSectionItem := string * string;
     ProjectStatusModel := string * list StatusSection;
     newProjectStatusModel := fun item _ secs =>
       (snd item,
        List.map (fun s => {| fieldName := fst s; iconName := snd s; color := "green" |})
                 secs);
     status_siteId := fst;
     sections := snd;
     ProjectModel := string * list (string * list StatusSection) * property string;
     newProjectModel := fun item status => (item, status, Missing);
     project_siteId := fun p => fst (fst p);
     setTitle := fun p title => (fst p, title) |}.

Definition config : Config :=
  {| CONFIG_LIST_NAME := "Portfolios";
     PHASE_FIELD_NAME := "GtProjectPhase";
     PROJECTS_LIST_NAME := "Projects";
     PROJECT_COLUMN_CONFIGURATION_LIST_NAME := "Project column configuration";
     PROJECT_STATUS_LIST_NAME := "Project status";
     STATUS_SECTIONS_LIST_NAME := "Status sections" |}.

(** No argument has a property worth reading. *)
Definition no_properties (x : string) (path : list string) : error + string :=
  inr "".

Definition column (internal title value colour : string)
  : IPortfolioColumnConfigurationItem :=
  {| GtPortfolioColumnColor := colour;
     GtPortfolioColumnValue := value;
     GtPortfolioColumn :=
       {| PortfolioColumn.Title := title; PortfolioColumn.GtInternalName := internal |} |}.

Definition term (n : string) (props : list (string * string)) : Term.t :=
  {| Term.Name := n;
     Term.LocalCustomProperties := list_to_map props;
     Term.others := {[ "Id" := n ]} |}.

Definition hits : list SiteResult.t :=
  [ {| SiteResult.SiteId := "s1"; SiteResult.Title := "Alpha" |};
    {| SiteResult.SiteId := "s2"; SiteResult.Title := "" |};
    {| SiteResult.SiteId := "s1"; SiteResult.Title := "Alpha two" |} ].

Definition columns : list IPortfolioColumnConfigurationItem :=
  [ column "GtStatusRisk" "" "High" "red";
    column "GtBudget" "Budget" "Over" "red";
    column "GtStatusRisk" "Risk" "Low" "green";
    column "GtStatusRisk" "Risk level" "High" "orange";
    column "GtStatusRisk" "Risk" "__proto__" "grey" ].

Definition terms : list Term.t :=
  [ term "Concept" [];
    term "Archive" [("ShowOnFrontpage", "false")];
    term "Build" [("ShowOnFrontpage", "true")] ].

Definition platform : DataAdapter.Platform (H := models) :=
  {| DataAdapter.site_Id := fun _ => Promise 1 (inr "hub");
     DataAdapter.field_TermSetId := fun _ => Promise 1 (inr "phases");
     DataAdapter.search_hits := fun _ _ => Promise 3 (inr hits);
     DataAdapter.projects_rows := fun _ _ =>
       Promise 2 (inr (["s1"; "s2"; "s3"] : list (IProjectItem (Models := models))));
     DataAdapter.status_rows := fun _ _ =>
       Promise 2 (inr ([(1%Z, "s1"); (2%Z, "s2"); (3%Z, "s1")]
                       : list (IProjectStatusItem (Models := models))));
     DataAdapter.column_rows := fun _ _ => Promise 2 (inr columns);
     DataAdapter.section_rows := fun _ _ =>
       Promise 1 (inr ([("GtStatusRisk", "Warning")]
                       : list (IStatusSectionItem (Models := models))));
     DataAdapter.term_set_terms := fun _ => Promise 4 (inr terms) |}.

(** The same requests, except that the status list and the term store
    answer with an error, the term store first. *)
Definition failing_platform : DataAdapter.Platform (H := models) :=
  {| DataAdapter.site_Id := DataAdapter.site_Id platform;
     DataAdapter.field_TermSetId := DataAdapter.field_TermSetId platform;
     DataAdapter.search_hits := DataAdapter.search_hits platform;
     DataAdapter.projects_rows := DataAdapter.projects_rows platform;
     DataAdapter.status_rows := fun _ _ =>
       Promise 5 (inl (RequestError 503 "Service Unavailable"));
     DataAdapter.column_rows := DataAdapter.column_rows platform;
     DataAdapter.section_rows := DataAdapter.section_rows platform;
     DataAdapter.term_set_terms := fun _ =>
       Promise 2 (inl (RequestError 404 "Not Found")) |}.

Definition portfolio : Portfolio := {| id := "7"; url := "https://hub" |}.

(** [new DataAdapter().usingCaching(...)] *)
Definition adapter : DataAdapter.state :=
  DataAdapter.usingCaching 3600 "projectoverview" DataAdapter.initial.

(** What [fetchData] makes of these requests, and the fields it leaves
    behind. *)
Definition result : DataAdapter.IDataAdapterFetchResult (H := models) :=
  let section_ := {| fieldName := "GtStatusRisk"; iconName := "Warning"; color := "green" |} in
  {| DataAdapter.projects :=
       [ ("s1", [("s1", [section_]); ("s1", [section_])], Own "Alpha two")
         : ProjectModel (Models := models) ];
     DataAdapter.phases :=
       [ {| Phase.Name := "Concept"; Phase.LocalCustomProperties := ∅ |};
         {| Phase.Name := "Build";
            Phase.LocalCustomProperties := {[ "ShowOnFrontpage" := "true" ]} |} ] |}.

Definition final : DataAdapter.state :=
  {| DataAdapter.cacheOptions := DataAdapter.cacheOptions adapter;
     DataAdapter.site := Some "https://hub";
     DataAdapter.current := Some portfolio;
     DataAdapter.cacheKeys :=
       [ "projectoverview_7_phase_term_set_id"; "projectoverview_7_projects";
         "projectoverview_7_project_status"; "projectoverview_7_column_configuration";
         "projectoverview_7_status_sections" ] |}.

(** The options that [getColumnConfigurations] asks for on [final],
    and the fields after that call. *)
Definition column_options : ICachingOptions :=
  {| expiration := 3600; key := "projectoverview_7_column_configuration" |}.

Definition after_columns : DataAdapter.state :=
  {| DataAdapter.cacheOptions := DataAdapter.cacheOptions final;
     DataAdapter.site := DataAdapter.site final;
     DataAdapter.current := DataAdapter.current final;
     DataAdapter.cacheKeys := DataAdapter.cacheKeys final ++ [key column_options] |}.

(** An adapter whose alias contains a replacement field, with the
    portfolio as its current one. *)
Definition adapter_with_field : DataAdapter.state :=
  snd (DataAdapter.set_current portfolio
         (DataAdapter.usingCaching 3600 "a{0}" DataAdapter.initial)).

Definition properties : StatusColumn.Properties :=
  {| StatusColumn.showTooltip := Bool false;
     StatusColumn.columnIconGap := Num 0;
     StatusColumn.columnIconSize := Num 14 |}.

Definition status : ProjectStatusModel (Models := models) :=
  ("s1", [ {| fieldName := "GtStatusRisk"; iconName := "Warning"; color := "red" |};
           {| fieldName := "GtStatusTime"; iconName := "Clock"; color := "green" |} ]).

End Sample.

(** ** The portfolios

    [getPortfolios()] reads the configuration list of the current web.
    The item interface [IPortfolioItem] and the constructor of
    [Portfolio] are declared in [../models] and are parameters. *)

Class PortfolioItems := {
  IPortfolioItem : Type;
  newPortfolio : IPortfolioItem -> Portfolio;
}.

Module Portfolios.
Import JS DataAdapter.

Section GetPortfolios.
Context `{Config} `{PortfolioItems}.

(** The rows of a list of the current web, by the title of the list. *)
Variable web_rows : string -> promise (list IPortfolioItem).

Definition portfolios_query : ItemsQuery IPortfolioItem :=
  {| q_select := ["ID"; "Title"; "URL"; "IconName"]; q_expand := [];
     q_filter := None; q_orderBy := None;
     q_top := 500; q_caching := None |}.

(** [getPortfolios()] *)
Definition getPortfolios : M (promise (list Portfolio)) :=
  async (ret (then_ (JS.map newPortfolio)
                    (items_get portfolios_query (web_rows CONFIG_LIST_NAME)))).

End GetPortfolios.
End Portfolios.

(** ** Further vocabulary and cases *)

Module Keys.

(** A string in which no underscore occurs, as the decimal rendering of
    a list item's ID is. *)
Fixpoint underscore_free (s : string) : bool :=
  match s with
  | EmptyString => true
  | String c s' => negb (Ascii.eqb c "_") && underscore_free s'
  end.

End Keys.

Module Cases.
Import JS.

(** The site of the portfolio cannot be reached. *)
Definition offline_platform : DataAdapter.Platform (H := Sample.models) :=
  {| DataAdapter.site_Id := fun _ => Promise 7 (inl (RequestError 0 "Failed to fetch"));
     DataAdapter.field_TermSetId := DataAdapter.field_TermSetId Sample.platform;
     DataAdapter.search_hits := DataAdapter.search_hits Sample.platform;
     DataAdapter.projects_rows := DataAdapter.projects_rows Sample.platform;
     DataAdapter.status_rows := DataAdapter.status_rows Sample.platform;
     DataAdapter.column_rows := DataAdapter.column_rows Sample.platform;
     DataAdapter.section_rows := DataAdapter.section_rows Sample.platform;
     DataAdapter.term_set_terms := DataAdapter.term_set_terms Sample.platform |}.

(** The sample requests, with one more row in the projects list: a
    project whose [GtSiteId] is the word [constructor]. *)
Definition platform_with_constructor : DataAdapter.Platform (H := Sample.models) :=
  {| DataAdapter.site_Id := DataAdapter.site_Id Sample.platform;
     DataAdapter.field_TermSetId := DataAdapter.field_TermSetId Sample.platform;
     DataAdapter.search_hits := DataAdapter.search_hits Sample.platform;
     DataAdapter.projects_rows := fun _ _ =>
       Promise 2 (inr (["s1"; "constructor"]
                       : list (IProjectItem (Models := Sample.models))));
     DataAdapter.status_rows := DataAdapter.status_rows Sample.platform;
     DataAdapter.column_rows := DataAdapter.column_rows Sample.platform;
     DataAdapter.section_rows := DataAdapter.section_rows Sample.platform;
     DataAdapter.term_set_terms := DataAdapter.term_set_terms Sample.platform |}.

(** The sample adapter with the sample portfolio as its current one. *)
Definition current_adapter : DataAdapter.state :=
  snd (DataAdapter.set_current Sample.portfolio Sample.adapter).

Definition other_portfolio : Portfolio := {| id := "12"; url := "https://other" |}.

Definition other_current_adapter : DataAdapter.state :=
  snd (DataAdapter.set_current other_portfolio Sample.adapter).

(** An adapter whose alias holds an empty replacement field. *)
Definition adapter_with_empty_field : DataAdapter.state :=
  snd (DataAdapter.set_current Sample.portfolio
         (DataAdapter.usingCaching 3600 "x{}y" DataAdapter.initial)).


End Cases.

(** * Part II: the properties *)

(** ** Arrays *)

Section Arrays.
Context {A B : Type}.

Lemma fold_push_filter (p : A -> bool) (xs acc : list A) :
  fold_left (fun results x => if p x then results ++ [x] else results) xs acc
  = acc ++ List.filter p xs.
Proof.
  revert acc. induction xs as [|x xs IH]; intros acc; simpl.
  - by rewrite app_nil_r.
  - rewrite IH. destruct (p x); [|done]. by rewrite <- app_assoc.
Qed.

Lemma fold_push_map (f : A -> B) (xs : list A) (acc : list B) :
  fold_left (fun results x => results ++ [f x]) xs acc = acc ++ List.map f xs.
Proof.
  revert acc. induction xs as [|x xs IH]; intros acc; simpl.
  - by rewrite app_nil_r.
  - rewrite IH. by rewrite <- app_assoc.
Qed.

Lemma fold_push_some (xs : list (option A)) (acc : list A) :
  fold_left (fun results p =>
               match p with Some x => results ++ [x] | None => results end) xs acc
  = acc ++ omap (fun p => p) xs.
Proof.
  revert acc. induction xs as [|[x|] xs IH]; intros acc; simpl.
  - by rewrite app_nil_r.
  - rewrite IH. by rewrite <- app_assoc.
  - apply IH.
Qed.

(** The loop of [filter] keeps the elements that pass, in order. *)
Lemma JS_filter_eq (p : A -> bool) (xs : list A) :
  JS.filter p xs = List.filter p xs.
Proof. apply fold_push_filter. Qed.

Lemma JS_map_eq (f : A -> B) (xs : list A) : JS.map f xs = List.map f xs.
Proof. apply fold_push_map. Qed.

Lemma compact_eq (xs : list (option A)) :
  DataAdapter.compact xs = omap (fun p => p) xs.
Proof. apply fold_push_some. Qed.

End Arrays.

Lemma compact_map_eq {A B} (f : A -> option B) (xs : list A) :
  DataAdapter.compact (JS.map f xs) = omap f xs.
Proof.
  rewrite compact_eq, JS_map_eq. induction xs as [|x xs IH]; [done|].
  cbn [List.map omap list_omap]. rewrite IH. by destruct (f x).
Qed.

(** The boolean filter of the loop and the filter by a decidable
    predicate agree. *)
Lemma filter_bool_decide {A} (p : A -> bool) (P : A -> Prop) `{!forall x, Decision (P x)}
    (xs : list A) :
  (forall x, p x = true <-> P x) -> List.filter p xs = filter P xs.
Proof.
  intros Hp. induction xs as [|x xs IH]; simpl; [done|].
  rewrite IH. destruct (p x) eqn:E.
  - rewrite filter_cons_True; [done|]. by apply Hp.
  - rewrite filter_cons_False; [done|]. intros HP. apply Hp in HP. congruence.
Qed.

(** ** The cache keys *)

Section CacheKeys.
Import JS StringFormat DataAdapter.
Variable property_path : string -> list string -> error + string.

Lemma append_empty_r (s : string) : s +:+ "" = s.
Proof. induction s as [|c s IH]; [done|]. change (String c (s +:+ "") = String c s). by rewrite IH. Qed.

(** Characters other than braces are copied by the scan. *)
Lemma scan_brace_free (args : list string) (st : numbering * nat) (a t : string) :
  brace_free a = true ->
  scan property_path args 0 st (a +:+ t)
  = match scan property_path args 0 st t with
    | inl e => inl e
    | inr out => inr (a +:+ out)
    end.
Proof.
  induction a as [|c a IH]; intros Hfree.
  - change ("" +:+ t) with t. by destruct (scan _ _ _ _ t).
  - change (String c a +:+ t) with (String c (a +:+ t)).
    simpl in Hfree. destruct (andb_prop _ _ Hfree) as [Hc Ha].
    apply negb_true_iff in Hc. simpl. rewrite Hc, (IH Ha).
    by destruct (scan _ _ _ _ t).
Qed.

(** The template that [usingCaching] stores, formatted with an id and
    a key. *)
Lemma format_cache_key (alias a b : string) :
  brace_free alias = true ->
  format property_path (alias +:+ "_{0}_{1}") [a; b]
  = inr (alias +:+ "_" +:+ a +:+ "_" +:+ b).
Proof.
  intros Hfree. unfold format. rewrite scan_brace_free by done.
  replace (scan property_path [a; b] 0 (UNDEFINED, 0) "_{0}_{1}")
    with (inr (B := string) (A := error) ("_" +:+ a +:+ "_" +:+ b +:+ "")); [|done].
  by rewrite append_empty_r.
Qed.
End CacheKeys.

Section GetCacheOptions.
Import JS StringFormat DataAdapter.

(** C5, as amended. After [usingCaching({expiration, alias})] with an
    alias in which no brace occurs, and once the current portfolio
    configuration is set, [getCacheOptions(key)] returns options whose
    key is [alias + '_' + config.id + '_' + key] and whose expiration is
    the one given to [usingCaching], and it appends that key to
    [cacheKeys], leaving the other fields alone. *)
Theorem getCacheOptions_formats_key
    (property_path : string -> list string -> error + string)
    (exp : Z) (alias : string) (config : Portfolio) (k : string)
    (st0 st : state) :
  brace_free alias = true ->
  cacheOptions st = cacheOptions (usingCaching exp alias st0) ->
  current st = Some config ->
  getCacheOptions property_path k st
  = (inr {| expiration := exp; key := alias +:+ "_" +:+ id config +:+ "_" +:+ k |},
     {| cacheOptions := cacheOptions st; site := site st; current := current st;
        cacheKeys := cacheKeys st ++ [alias +:+ "_" +:+ id config +:+ "_" +:+ k] |}).
Proof.
  intros Hfree Hoptions Hcurrent.
  destruct st as [options u cur ks]. simpl in Hoptions, Hcurrent. subst options cur.
  unfold getCacheOptions, bind, read. cbn -[format String.append].
  rewrite format_cache_key by done. reflexivity.
Qed.

Lemma getCacheOptions_formats_key_witness :
  getCacheOptions Sample.no_properties "projects"
    (snd (set_current Sample.portfolio Sample.adapter))
  = (inr {| expiration := 3600; key := "projectoverview_7_projects" |},
     {| cacheOptions := cacheOptions Sample.adapter; site := None;
        current := Some Sample.portfolio;
        cacheKeys := ["projectoverview_7_projects"] |}).
Proof.
  apply (getCacheOptions_formats_key Sample.no_properties 3600 "projectoverview"
           Sample.portfolio "projects" initial); reflexivity.
Defined.

(** C5 as it was stated fails for an alias that contains a replacement
    field: the alias is part of the template, so [{0}] in it is
    replaced by the id as well. *)
Lemma getCacheOptions_alias_with_field :
  cacheOptions Sample.adapter_with_field
  = cacheOptions (usingCaching 3600 "a{0}" initial)
  /\ current Sample.adapter_with_field = Some Sample.portfolio
  /\ fst (getCacheOptions Sample.no_properties "projects" Sample.adapter_with_field)
     = inr {| expiration := 3600; key := "a7_7_projects" |}
  /\ fst (getCacheOptions Sample.no_properties "projects" Sample.adapter_with_field)
     <> inr {| expiration := 3600;
               key := "a{0}" +:+ "_" +:+ id Sample.portfolio +:+ "_" +:+ "projects" |}.
Proof. repeat split; [discriminate]. Qed.

End GetCacheOptions.

(** ** Promises and the monad of the adapter *)

Section Monad.
Import JS DataAdapter.

Lemma bind_resolved {A B} (m : M A) (k : A -> M B) st b st' :
  bind m k st = (inr b, st') ->
  exists a st1, m st = (inr a, st1) /\ k a st1 = (inr b, st').
Proof.
  unfold bind. destruct (m st) as [[e|a] st1]; [discriminate|]. eauto.
Qed.

Lemma read_resolved {A} (f : state -> option A) st a st' :
  read f st = (inr a, st') -> f st = Some a /\ st' = st.
Proof. unfold read. destruct (f st); intros; by simplify_eq. Qed.

Lemma await_resolved {A} (p : promise A) st a st' :
  await p st = (inr a, st') -> outcome p = inr a /\ st' = st.
Proof. unfold await. intros; by simplify_eq. Qed.

(** The call of an [async] function never throws. *)
Lemma async_returns {A} (body : M (promise A)) st :
  exists p st', async body st = (inr p, st').
Proof. unfold async. destruct (body st) as [[e|p] st']; eauto. Qed.

Lemma then_resolved {A B} (f : A -> B) (p : promise A) b :
  outcome (then_ f p) = inr b <-> exists a, outcome p = inr a /\ b = f a.
Proof.
  unfold then_; simpl.
  destruct (outcome p); split; intros Hx; try destruct Hx as (? & ? & ?);
    simplify_eq; eauto.
Qed.

(** [Promise.all] resolves exactly when both elements do. *)
Lemma all2_resolved {A B} (p : promise A) (q : promise B) a b :
  outcome (all2 p q) = inr (a, b) <-> outcome p = inr a /\ outcome q = inr b.
Proof.
  unfold all2. destruct (outcome p), (outcome q); try case_decide;
    (split; [intros Hx | intros [Hx Hy]]); simplify_eq/=; auto.
Qed.

Variable property_path : string -> list string -> error + string.

(** [getCacheOptions] touches [cacheKeys] only. *)
Lemma getCacheOptions_fields k st r st' :
  getCacheOptions property_path k st = (r, st') ->
  cacheOptions st' = cacheOptions st /\ site st' = site st /\ current st' = current st.
Proof.
  unfold getCacheOptions, bind, read, throw, push_cacheKey, ret.
  destruct (cacheOptions st) as [o|] eqn:Ho; [|by intros [= <- <-]].
  destruct (current st) as [c|] eqn:Hc; [|by intros [= <- <-]].
  destruct (StringFormat.format _ _ _); intros [= <- <-]; simpl; auto.
Qed.
End Monad.

(** ** What [fetchData] resolves to *)

Section FetchData.
Import JS DataAdapter.
Context `{Models} `{Config}.
Variable property_path : string -> list string -> error + string.
Variable sp : Platform.

Lemma getColumnConfigurations_resolved st p st' cols :
  getColumnConfigurations property_path sp st = (inr p, st') ->
  outcome p = inr cols ->
  exists u o, site st = Some u /\ outcome (column_configurations sp u o) = inr cols.
Proof.
  unfold getColumnConfigurations, async. intros Hcall Hp.
  destruct (bind _ _ st) as [[e|p'] st1] eqn:Hbody.
  - injection Hcall as <- <-. discriminate.
  - injection Hcall as <- <-.
    apply bind_resolved in Hbody as (u & st2 & Hu & Hbody).
    apply read_resolved in Hu as [Hu ->].
    apply bind_resolved in Hbody as (o & st3 & _ & Hbody).
    injection Hbody as <- <-. eauto.
Qed.

(** A property of the fields that every step keeps is kept by the
    sequence. *)
Lemma bind_keeps {A B} (P : state -> Prop) (m : M A) (k : A -> M B) :
  (forall st r st', P st -> m st = (r, st') -> P st') ->
  (forall a st r st', P st -> k a st = (r, st') -> P st') ->
  forall st r st', P st -> bind m k st = (r, st') -> P st'.
Proof.
  unfold bind. intros Hm Hk st r st' HP.
  destruct (m st) as [[e|a] st1] eqn:Hstep.
  - intros [= <- <-]. eauto.
  - intros Hrest. eauto.
Qed.

Lemma async_keeps {A} (P : state -> Prop) (body : M (JS.promise A)) :
  (forall st r st', P st -> body st = (r, st') -> P st') ->
  forall st r st', P st -> async body st = (r, st') -> P st'.
Proof.
  unfold async. intros Hbody st r st' HP.
  destruct (body st) as [[e|p] st1] eqn:Hstep; intros [= <- <-]; eauto.
Qed.

Lemma read_fields {A} (f : state -> option A) st r st' :
  read f st = (r, st') -> st' = st.
Proof. unfold read. destruct (f st); by intros [= <- <-]. Qed.

Ltac keeps :=
  lazymatch goal with
  | |- forall st r st', _ -> bind _ _ st = _ -> _ =>
      apply bind_keeps; [|intros ?]
  | |- forall st r st', _ -> async _ st = _ -> _ =>
      apply async_keeps
  | |- forall st r st', _ -> read _ st = _ -> _ =>
      by intros ? ? ? ? ->%read_fields
  | |- forall st r st', _ -> getCacheOptions _ _ st = _ -> _ =>
      intros ? ? ? [? ?] (? & ? & ?)%getCacheOptions_fields; split; congruence
  | |- forall st r st', _ -> _ st = _ -> _ =>
      by intros ? ? ? [? ?] [= <- <-]
  end.

(** [fetchData(config)] leaves the adapter with [config] as its current
    portfolio and with the caching options it had, whether it resolves
    or not. *)
Lemma fetchData_fields config st r st' :
  fetchData property_path sp config st = (r, st') ->
  current st' = Some config /\ cacheOptions st' = cacheOptions st.
Proof.
  unfold fetchData, bind at 1. cbn [set_current].
  set (P := fun s => current s = Some config /\ cacheOptions s = cacheOptions st).
  assert (P {| cacheOptions := cacheOptions st; site := site st;
               current := Some config; cacheKeys := cacheKeys st |}) as HP by done.
  revert HP. generalize {| cacheOptions := cacheOptions st; site := site st;
                           current := Some config; cacheKeys := cacheKeys st |}.
  intros st1 HP Hrun. revert st1 r st' HP Hrun.
  unfold getPhaseFieldTermSetId, searchSitesInHub, getColumnConfigurations.
  repeat keeps.
  intros st1 r0 st2 HP.
  match goal with |- context [let '(_, _) := ?a in _] => destruct a as [? [? [? [? [? ?]]]]] end.
  by intros [= <- <-].
Qed.

(** The view model in terms of what the eight requests resolved to. *)
Lemma fetchData_resolved config st r st' :
  fetchData property_path sp config st = (inr r, st') ->
  exists siteId tsid _sites prows srows o cols secrows terms,
    outcome (site_Id sp (url config)) = inr siteId /\
    outcome (field_TermSetId sp PHASE_FIELD_NAME) = inr tsid /\
    outcome (sites_in_hub sp siteId) = inr _sites /\
    outcome (projects_rows sp (url config) PROJECTS_LIST_NAME) = inr prows /\
    outcome (status_rows sp (url config) PROJECT_STATUS_LIST_NAME) = inr srows /\
    outcome (column_configurations sp (url config) o) = inr cols /\
    outcome (section_rows sp (url config) STATUS_SECTIONS_LIST_NAME) = inr secrows /\
    outcome (term_set_terms sp tsid) = inr terms /\
    r = {| projects :=
             omap (to_project _sites
                     (List.map (fun item => newProjectStatusModel item cols (take 10 secrows))
                               (take 500 (order_rows (Id, false) srows))))
                  (take 500 prows);
           phases := List.map pick_phase (List.filter show_on_frontpage terms) |}.
Proof.
  unfold fetchData. intros Hrun.
  apply bind_resolved in Hrun as ([] & st1 & Hset & Hrun).
  injection Hset as <-.
  apply bind_resolved in Hrun as (cur & ? & Hcur & Hrun).
  apply read_resolved in Hcur as [[= <-] ->].
  apply bind_resolved in Hrun as ([] & st2 & Hset & Hrun).
  injection Hset as <-.
  apply bind_resolved in Hrun as (u & ? & Hu & Hrun).
  apply read_resolved in Hu as [[= <-] ->].
  apply bind_resolved in Hrun as (siteId & ? & HsiteId & Hrun).
  apply await_resolved in HsiteId as [HsiteId ->].
  apply bind_resolved in Hrun as (tsid & st3 & Htsid & Hrun).
  unfold getPhaseFieldTermSetId in Htsid.
  apply bind_resolved in Htsid as (o1 & st3' & Ho1 & Htsid).
  apply await_resolved in Htsid as [Htsid ->].
  apply getCacheOptions_fields in Ho1 as (_ & Hsite3 & _). simpl in Hsite3.
  apply bind_resolved in Hrun as (u & ? & Hu & Hrun).
  apply read_resolved in Hu as [Hu ->].
  rewrite Hsite3 in Hu. injection Hu as <-.
  apply bind_resolved in Hrun as (p_sites & st4 & Hsites & Hrun).
  injection Hsites as <- <-.
  apply bind_resolved in Hrun as (o2 & st5 & Ho2 & Hrun).
  apply getCacheOptions_fields in Ho2 as (_ & Hsite5 & _).
  apply bind_resolved in Hrun as (o3 & st6 & Ho3 & Hrun).
  apply getCacheOptions_fields in Ho3 as (_ & Hsite6 & _).
  apply bind_resolved in Hrun as (p_columns & st7 & Hcolumns & Hrun).
  apply bind_resolved in Hrun as (o5 & st8 & Ho5 & Hrun).
  apply bind_resolved in Hrun
    as ([_sites [_projects [_status [cols [_sections terms]]]]] & ? & Hall & Hrun).
  apply await_resolved in Hall as [Hall ->].
  injection Hrun as <- <-.
  apply all2_resolved in Hall as [Hsites Hall].
  apply all2_resolved in Hall as [Hprojects Hall].
  apply all2_resolved in Hall as [Hstatus Hall].
  apply all2_resolved in Hall as [Hcols Hall].
  apply all2_resolved in Hall as [Hsections Hterms].
  apply then_resolved in Hprojects as (prows & Hprojects & ->).
  apply then_resolved in Hstatus as (srows & Hstatus & ->).
  apply then_resolved in Hsections as (secrows & Hsections & ->).
  destruct (getColumnConfigurations_resolved _ _ _ _ Hcolumns Hcols)
    as (u & o & Hu & Hcols').
  rewrite Hsite6, Hsite5, Hsite3 in Hu. injection Hu as <-.
  exists siteId, tsid, _sites, prows, srows, o, cols, secrows, terms.
  repeat split; try done.
  rewrite compact_map_eq, !JS_map_eq, JS_filter_eq. reflexivity.
Qed.
End FetchData.

(** ** Projects and phases *)

Section ViewModel.
Import DataAdapter.
Context `{Models} `{Config}.
Variable property_path : string -> list string -> JS.error + string.
Variable sp : Platform.

Lemma status_of_eq (status : list ProjectStatusModel) (item : IProjectItem) :
  status_of status item = filter (fun s => status_siteId s = GtSiteId item) status.
Proof.
  unfold status_of. rewrite JS_filter_eq. apply filter_bool_decide.
  intros s. apply String.eqb_eq.
Qed.

Lemma inherited_spec (k : string) :
  JS.inherited k = true <-> k ∈ JS.object_prototype.
Proof.
  unfold JS.inherited. rewrite existsb_exists. split.
  - intros (x & Hin & ->%String.eqb_eq). by apply list_elem_of_In.
  - intros Hin. exists k. split; [by apply list_elem_of_In | apply String.eqb_refl].
Qed.

(** Reading a plain object of strings, case by case. *)
Lemma get_cases (obj : gmap string string) (k : string) :
  match JS.get obj k with
  | JS.Own a => obj !! k = Some a
  | JS.Inherited k' => k' = k /\ obj !! k = None /\ k ∈ JS.object_prototype
  | JS.Missing => obj !! k = None /\ k ∉ JS.object_prototype
  end.
Proof.
  unfold JS.get. destruct (obj !! k) as [a|]; [done|].
  destruct (JS.inherited k) eqn:Hk.
  - by apply inherited_spec in Hk.
  - split; [done|]. intros Hin%inherited_spec. congruence.
Qed.

(** The callback of [_projects.map] builds the model of an item from
    the status models of its site and keeps it or not. *)
Lemma to_project_eq _sites status item :
  to_project _sites status item
  = Spec.kept _sites
      (newProjectModel item
         (filter (fun s => status_siteId s = GtSiteId item) status)).
Proof.
  unfold to_project, Spec.kept. rewrite status_of_eq.
  set (project := newProjectModel item _).
  pose proof (get_cases _sites (project_siteId project)) as Hget.
  destruct (JS.get _sites (project_siteId project)) as [title|k|]; simpl.
  - rewrite Hget. by destruct (String.eqb_spec title ""); case_decide.
  - destruct Hget as (-> & -> & Hin). by case_decide.
  - destruct Hget as (-> & Hout). by case_decide.
Qed.

(** C1. Whenever [fetchData] resolves, its projects are what is kept of
    the models built for the fetched project items, one per item and in
    their order, and the model for an item is constructed with the
    status models whose [siteId] equals the item's [GtSiteId], all of
    them and no others, in the order in which the status items were
    fetched. The status models are those of the fetched status items,
    built with the column configurations and the status sections that
    were fetched along with them. *)
Theorem fetchData_status_by_site config st r st' :
  fetchData property_path sp config st = (inr r, st') ->
  exists siteId _sites prows srows crows secrows,
    JS.outcome (site_Id sp (url config)) = inr siteId /\
    JS.outcome (sites_in_hub sp siteId) = inr _sites /\
    JS.outcome (projects_rows sp (url config) PROJECTS_LIST_NAME) = inr prows /\
    JS.outcome (status_rows sp (url config) PROJECT_STATUS_LIST_NAME) = inr srows /\
    JS.outcome (column_rows sp (url config) PROJECT_COLUMN_CONFIGURATION_LIST_NAME)
    = inr crows /\
    JS.outcome (section_rows sp (url config) STATUS_SECTIONS_LIST_NAME) = inr secrows /\
    projects r
    = omap (fun item =>
              Spec.kept _sites
                (newProjectModel item
                   (filter (fun s => status_siteId s = GtSiteId item)
                           ((fun item =>
                               newProjectStatusModel item
                                 (JS.reduce add_column ∅
                                    (take 500 (List.filter starts_with_GtStatus crows)))
                                 (take 10 secrows))
                              <$> take 500 (order_rows (Id, false) srows)))))
           (take 500 prows).
Proof.
  intros Hrun.
  apply fetchData_resolved in Hrun
    as (siteId & tsid & _sites & prows & srows & o & cols & secrows & terms
        & HsiteId & _ & Hsites & Hprows & Hsrows & Hcols & Hsecrows & _ & ->).
  apply then_resolved in Hcols as (items & Hcols & ->).
  apply then_resolved in Hcols as (crows & Hcols & ->).
  exists siteId, _sites, prows, srows, crows, secrows.
  repeat split; try done. simpl.
  apply list_omap_ext, Forall2_same_length_lookup_2; [done|].
  intros i x y Hx Hy. rewrite Hx in Hy. injection Hy as <-.
  apply to_project_eq.
Qed.

(** C2, as amended. Whenever [fetchData] resolves, its projects are
    what is kept of the models built for the fetched project items,
    where, among the models whose [siteId] names no property of
    [Object.prototype], a model is kept only if its [siteId] is a key of
    the map that [searchSitesInHub] made of the hub's search results, a
    kept model has its title set to the title that the map gives for its
    [siteId], and a model whose [siteId] is not a key of the map is
    dropped. *)
Theorem fetchData_projects_in_hub config st r st' :
  fetchData property_path sp config st = (inr r, st') ->
  exists siteId _sites prows status (built : list ProjectModel),
    JS.outcome (site_Id sp (url config)) = inr siteId /\
    JS.outcome (sites_in_hub sp siteId) = inr _sites /\
    JS.outcome (projects_rows sp (url config) PROJECTS_LIST_NAME) = inr prows /\
    built = (fun item => newProjectModel item (status_of status item)) <$> take 500 prows /\
    projects r = omap (Spec.kept _sites) built /\
    (forall b p, project_siteId b ∉ JS.object_prototype ->
       Spec.kept _sites b = Some p ->
       exists title,
         _sites !! project_siteId b = Some title /\ p = setTitle b (JS.Own title)) /\
    (forall b, project_siteId b ∉ JS.object_prototype ->
       _sites !! project_siteId b = None -> Spec.kept _sites b = None).
Proof.
  intros Hrun.
  apply fetchData_resolved in Hrun
    as (siteId & tsid & _sites & prows & srows & o & cols & secrows & terms
        & HsiteId & _ & Hsites & Hprows & _ & _ & _ & _ & ->).
  set (status := List.map _ (take 500 (order_rows _ srows))).
  exists siteId, _sites, prows, status. eexists.
  split; [done|]. split; [done|]. split; [done|]. split; [reflexivity|].
  split; [|split].
  - simpl. induction (take 500 prows) as [|item items IH]; [done|].
    cbn [fmap list_fmap omap list_omap].
    rewrite to_project_eq, <- status_of_eq.
    destruct (Spec.kept _ _); by rewrite IH.
  - intros b p Hout. unfold Spec.kept.
    destruct (_sites !! project_siteId b) as [title|]; [|by case_decide].
    case_decide; [done|]. intros [= <-]. eauto.
  - intros b Hout Hb. unfold Spec.kept. rewrite Hb. by case_decide.
Qed.

(** C3. Whenever [fetchData] resolves, its phases correspond, one to one
    and in order, to the terms of the phase field's term set whose local
    custom property [ShowOnFrontpage] is not the string [false], and
    each phase consists of the [Name] and the [LocalCustomProperties]
    of its term. *)
Theorem fetchData_phases config st r st' :
  fetchData property_path sp config st = (inr r, st') ->
  exists tsid terms,
    JS.outcome (field_TermSetId sp PHASE_FIELD_NAME) = inr tsid /\
    JS.outcome (term_set_terms sp tsid) = inr terms /\
    Forall2 (fun phase term =>
               Phase.Name phase = Term.Name term /\
               Phase.LocalCustomProperties phase = Term.LocalCustomProperties term)
            (phases r)
            (filter (fun term =>
                       Term.LocalCustomProperties term !! "ShowOnFrontpage" <> Some "false")
                    terms).
Proof.
  intros Hrun.
  apply fetchData_resolved in Hrun
    as (siteId & tsid & _sites & prows & srows & o & cols & secrows & terms
        & _ & Htsid & _ & _ & _ & _ & _ & Hterms & ->).
  exists tsid, terms. split; [done|]. split; [done|]. simpl.
  rewrite <- (filter_bool_decide show_on_frontpage).
  - induction (List.filter show_on_frontpage terms) as [|term ts IH]; simpl;
      constructor; auto.
  - intros term. unfold show_on_frontpage.
    destruct (_ !! "ShowOnFrontpage") as [v|]; [|done].
    rewrite negb_true_iff.
    destruct (String.eqb_spec v "false"); split; intros; simplify_eq; congruence.
Qed.
End ViewModel.

(** The sample portfolio is fetched without an error. *)
Lemma sample_fetched :
  DataAdapter.fetchData (H := Sample.models) (H0 := Sample.config)
    Sample.no_properties Sample.platform Sample.portfolio Sample.adapter
  = (inr Sample.result, Sample.final).
Proof. vm_compute. reflexivity. Qed.

Section ViewModelOnSample.
Import DataAdapter.
#[local] Existing Instance Sample.models.
#[local] Existing Instance Sample.config.

Lemma fetchData_status_by_site_witness :
  fetchData Sample.no_properties Sample.platform Sample.portfolio Sample.adapter
  = (inr Sample.result, Sample.final)
  /\ exists siteId _sites prows srows crows secrows,
    JS.outcome (site_Id Sample.platform "https://hub") = inr siteId /\
    JS.outcome (sites_in_hub Sample.platform siteId) = inr _sites /\
    JS.outcome (projects_rows Sample.platform "https://hub" "Projects") = inr prows /\
    JS.outcome (status_rows Sample.platform "https://hub" "Project status") = inr srows /\
    JS.outcome (column_rows Sample.platform "https://hub" "Project column configuration")
    = inr crows /\
    JS.outcome (section_rows Sample.platform "https://hub" "Status sections")
    = inr secrows /\
    projects Sample.result
    = omap (fun item =>
              Spec.kept _sites
                (newProjectModel item
                   (filter (fun s => status_siteId s = GtSiteId item)
                           ((fun item =>
                               newProjectStatusModel item
                                 (JS.reduce add_column ∅
                                    (take 500 (List.filter starts_with_GtStatus crows)))
                                 (take 10 secrows))
                              <$> take 500 (order_rows (Id, false) srows)))))
           (take 500 prows).
Proof.
  split; [exact sample_fetched|].
  exact (fetchData_status_by_site Sample.no_properties Sample.platform
           Sample.portfolio Sample.adapter Sample.result Sample.final sample_fetched).
Defined.

Lemma fetchData_projects_in_hub_witness :
  fetchData Sample.no_properties Sample.platform Sample.portfolio Sample.adapter
  = (inr Sample.result, Sample.final)
  /\ exists siteId _sites prows status (built : list ProjectModel),
    JS.outcome (site_Id Sample.platform "https://hub") = inr siteId /\
    JS.outcome (sites_in_hub Sample.platform siteId) = inr _sites /\
    JS.outcome (projects_rows Sample.platform "https://hub" "Projects") = inr prows /\
    built = (fun item => newProjectModel item (status_of status item)) <$> take 500 prows /\
    projects Sample.result = omap (Spec.kept _sites) built /\
    (forall b p, project_siteId b ∉ JS.object_prototype ->
       Spec.kept _sites b = Some p ->
       exists title,
         _sites !! project_siteId b = Some title /\ p = setTitle b (JS.Own title)) /\
    (forall b, project_siteId b ∉ JS.object_prototype ->
       _sites !! project_siteId b = None -> Spec.kept _sites b = None).
Proof.
  split; [exact sample_fetched|].
  exact (fetchData_projects_in_hub Sample.no_properties Sample.platform
           Sample.portfolio Sample.adapter Sample.result Sample.final sample_fetched).
Defined.

(** C2 as it was stated fails for a project whose site id names a
    property of [Object.prototype]: the word [constructor] is no key of
    the map of the hub's sites, and yet the project is returned, with the
    inherited property as its title. *)
Lemma fetchData_keeps_inherited_site_id :
  exists r st' _sites p,
    fetchData Sample.no_properties Cases.platform_with_constructor Sample.portfolio
      Sample.adapter
    = (inr r, st') /\
    JS.outcome (sites_in_hub Cases.platform_with_constructor "hub") = inr _sites /\
    _sites !! "constructor" = None /\
    p ∈ projects r /\
    project_siteId p = "constructor" /\
    p = setTitle (newProjectModel "constructor" []) (JS.Inherited "constructor").
Proof.
  eexists _, _, _, _.
  split; [vm_compute; reflexivity|]. split; [reflexivity|].
  split; [vm_compute; reflexivity|].
  split; [apply list_elem_of_further, list_elem_of_here|].
  split; reflexivity.
Qed.

Lemma fetchData_phases_witness :
  fetchData Sample.no_properties Sample.platform Sample.portfolio Sample.adapter
  = (inr Sample.result, Sample.final)
  /\ exists tsid terms,
    JS.outcome (field_TermSetId Sample.platform "GtProjectPhase") = inr tsid /\
    JS.outcome (term_set_terms Sample.platform tsid) = inr terms /\
    Forall2 (fun phase term =>
               Phase.Name phase = Term.Name term /\
               Phase.LocalCustomProperties phase = Term.LocalCustomProperties term)
            (phases Sample.result)
            (filter (fun term =>
                       Term.LocalCustomProperties term !! "ShowOnFrontpage" <> Some "false")
                    terms).
Proof.
  split; [exact sample_fetched|].
  exact (fetchData_phases Sample.no_properties Sample.platform
           Sample.portfolio Sample.adapter Sample.result Sample.final sample_fetched).
Defined.
End ViewModelOnSample.

(** ** Objects built by [reduce] *)

Section Reduce.
Import DataAdapter.

Lemma reduce_snoc {A B} (f : B -> A -> B) (init : B) (xs : list A) (x : A) :
  JS.reduce f init (xs ++ [x]) = f (JS.reduce f init xs) x.
Proof. unfold JS.reduce. by rewrite fold_left_app. Qed.

Lemma filter_snoc {A} (P : A -> Prop) `{!forall x, Decision (P x)} (xs : list A) (x : A) :
  filter P (xs ++ [x]) = filter P xs ++ (if decide (P x) then [x] else []).
Proof.
  by rewrite filter_app.
Qed.

(** In the object of [searchSitesInHub] a site id is mapped to the
    title of the last result with that id. *)
Lemma reduce_add_site_lookup (results : list SiteResult.t) (k : string) :
  JS.reduce add_site ∅ results !! k
  = SiteResult.Title <$> last (filter (fun r => SiteResult.SiteId r = k) results).
Proof.
  induction results as [|r results IH] using rev_ind; [done|].
  rewrite reduce_snoc, filter_snoc. unfold add_site at 1. case_decide as Hk.
  - rewrite Hk, lookup_insert_eq, last_snoc. done.
  - rewrite lookup_insert_ne, app_nil_r by done. apply IH.
Qed.

Lemma first_nonempty_snoc (titles : list string) (title : string) :
  Spec.first_nonempty (titles ++ [title])
  = if String.eqb (Spec.first_nonempty titles) "" then title
    else Spec.first_nonempty titles.
Proof.
  unfold Spec.first_nonempty. rewrite filter_snoc.
  destruct (filter _ titles) as [|t ts] eqn:Hts; simpl.
  - destruct (decide (title <> "")) as [Ht|Ht]; [done|].
    apply dec_stable in Ht. by subst.
  - assert (t <> "") as Ht.
    { eapply (list_elem_of_filter (fun title => title <> "") titles).
      rewrite Hts. left. }
    by destruct (String.eqb_spec t "").
Qed.

Lemma first_nonempty_head (title : string) (titles : list string) :
  title <> "" -> Spec.first_nonempty (title :: titles) = title.
Proof.
  intros Htitle. unfold Spec.first_nonempty. by rewrite filter_cons_True.
Qed.

(** An assignment to a colors object that has no own [__proto__]. *)
Lemma put_eq (c : gmap string string) (k v : string) :
  c !! "__proto__" = None ->
  JS.put c k v = if decide (k = "__proto__") then c else <[k := v]> c.
Proof.
  intros Hnone. unfold JS.put.
  destruct (String.eqb_spec k "__proto__") as [->|Hk].
  - rewrite Hnone. by case_decide.
  - case_decide; [done|]. by destruct (c !! k).
Qed.

Lemma put_colours (c : gmap string string)
    (its : list IPortfolioColumnConfigurationItem)
    (x : IPortfolioColumnConfigurationItem) :
  Spec.colours its c ->
  Spec.colours (its ++ [x])
    (JS.put c (GtPortfolioColumnValue x) (GtPortfolioColumnColor x)).
Proof.
  intros Hc v. rewrite put_eq; [|by rewrite Hc]. rewrite filter_snoc.
  destruct (decide (GtPortfolioColumnValue x = "__proto__")) as [Hx|Hx].
  - rewrite Hc. case_decide as Hv; [done|].
    case_decide as Hxv; [congruence|]. by rewrite app_nil_r.
  - case_decide as Hv.
    + subst v. rewrite lookup_insert_ne by done. rewrite Hc. by case_decide.
    + case_decide as Hxv.
      * by rewrite Hxv, lookup_insert_eq, last_snoc.
      * rewrite lookup_insert_ne, app_nil_r by done. rewrite Hc. by case_decide.
Qed.

Lemma colours_nil : Spec.colours [] ∅.
Proof. intros v. rewrite lookup_empty. by case_decide. Qed.

(** The invariant of the reducer of [getColumnConfigurations]. *)
Lemma reduce_add_column_lookup (items : list IPortfolioColumnConfigurationItem)
    (k : string) :
  let its :=
    filter (fun item => PortfolioColumn.GtInternalName (GtPortfolioColumn item) = k)
           items in
  match JS.reduce add_column ∅ items !! k with
  | None => its = []
  | Some entry =>
      its <> [] /\
      name entry
      = Some (Spec.first_nonempty
                ((fun item => PortfolioColumn.Title (GtPortfolioColumn item)) <$> its)) /\
      exists c, colors entry = Some c /\ Spec.colours its c
  end.
Proof.
  induction items as [|x items IH] using rev_ind; [done|].
  simpl in IH |- *. rewrite reduce_snoc, filter_snoc.
  set (obj := JS.reduce add_column ∅ items) in *.
  set (its := filter _ items) in *.
  unfold add_column at 1. case_decide as Hk.
  - rewrite Hk, lookup_insert_eq. split; [by destruct its|].
    cbn [name colors].
    rewrite fmap_app. cbn [fmap list_fmap]. rewrite first_nonempty_snoc.
    destruct (obj !! k) as [entry|].
    + destruct IH as (_ & Hname & c & Hc & Hcolors).
      cbn [from_option Datatypes.id]. rewrite Hname, Hc.
      cbn [from_option Datatypes.id JS.truthy_string].
      split.
      * by destruct (String.eqb _ "").
      * eexists; split; [done|]. by apply put_colours.
    + rewrite IH. cbn [from_option Datatypes.id JS.truthy_string name colors negb].
      split; [done|].
      eexists; split; [done|]. apply (put_colours ∅ [] x), colours_nil.
  - rewrite lookup_insert_ne, app_nil_r by done. apply IH.
Qed.

(** What holds of the own properties holds of the values that the
    amended claim speaks of. *)
Lemma colours_describes (its : list IPortfolioColumnConfigurationItem)
    (entry : ColumnConfiguration) :
  name entry
  = Some (Spec.first_nonempty
            ((fun item => PortfolioColumn.Title (GtPortfolioColumn item)) <$> its)) ->
  (exists c, colors entry = Some c /\ Spec.colours its c) ->
  Spec.describes its entry.
Proof.
  intros Hname (c & Hc & Hcolours). split; [done|].
  exists c. split; [done|]. intros v Hv. rewrite Hcolours. by case_decide.
Qed.

(** An internal name that passed the filter of the query names no
    property of [Object.prototype]. *)
Lemma GtStatus_not_inherited (k : string) :
  String.prefix "GtStatus" k = true -> k ∉ JS.object_prototype.
Proof.
  intros Hprefix Hin. unfold JS.object_prototype in Hin.
  repeat (apply elem_of_cons in Hin as [->|Hin]; [discriminate Hprefix|]).
  by apply elem_of_nil in Hin.
Qed.
End Reduce.

(** ** The two helpers of [fetchData] that build an object *)

Section Helpers.
Import DataAdapter.
Context `{Models} `{Config}.
Variable property_path : string -> list string -> JS.error + string.
Variable sp : Platform.

(** C10. The query of [searchSitesInHub] has a row limit of 500, so at
    most 500 results come back; they are folded into an object keyed
    by [SiteId] in which each id is mapped to the [Title] of the last
    result with that id, so a later result overwrites an earlier one. *)
Theorem searchSitesInHub_later_overwrites siteId st hits :
  JS.outcome (search_hits sp (Querytext (hub_query siteId))
                             (TrimDuplicates (hub_query siteId))) = inr hits ->
  RowLimit (hub_query siteId) = 500 /\
  exists p results _sites,
    searchSitesInHub sp siteId st = (inr p, st) /\
    JS.outcome (search sp (hub_query siteId)) = inr results /\
    length results <= 500 /\
    JS.outcome p = inr _sites /\
    forall k,
      _sites !! k
      = SiteResult.Title <$> last (filter (fun r => SiteResult.SiteId r = k) results).
Proof.
  intros Hhits. split; [done|].
  exists (sites_in_hub sp siteId), (take 500 hits),
         (JS.reduce add_site ∅ (take 500 hits)).
  assert (JS.outcome (search sp (hub_query siteId)) = inr (take 500 hits)) as Hsearch.
  { apply then_resolved. eauto. }
  split; [done|]. split; [done|]. split; [rewrite length_take; lia|]. split.
  - apply then_resolved. eauto.
  - apply reduce_add_site_lookup.
Qed.

(** C4, as amended. [getColumnConfigurations] resolves to an object
    keyed by column internal name. Its keys are the internal names of
    the fetched configuration items, which all start with [GtStatus];
    the name of an entry is the first non-empty [Title] among the items
    with that internal name, hence the [Title] of the first of them
    whenever that one is not empty; and its colors map the
    [GtPortfolioColumnValue] of each of these items, unless that value
    is the name [__proto__], to its [GtPortfolioColumnColor], a later
    item overriding an earlier one. *)
Theorem getColumnConfigurations_entries st u o st1 rows :
  site st = Some u ->
  getCacheOptions property_path "column_configuration" st = (inr o, st1) ->
  JS.outcome (column_rows sp u PROJECT_COLUMN_CONFIGURATION_LIST_NAME) = inr rows ->
  exists p cols,
    getColumnConfigurations property_path sp st = (inr p, st1) /\
    JS.outcome p = inr cols /\
    let items := take 500 (List.filter starts_with_GtStatus rows) in
    forall k,
      let its :=
        filter (fun item => PortfolioColumn.GtInternalName (GtPortfolioColumn item) = k)
               items in
      match cols !! k with
      | None => its = []
      | Some entry =>
          its <> [] /\ String.prefix "GtStatus" k = true /\ Spec.describes its entry /\
          forall first rest,
            its = first :: rest ->
            PortfolioColumn.Title (GtPortfolioColumn first) <> "" ->
            name entry = Some (PortfolioColumn.Title (GtPortfolioColumn first))
      end.
Proof.
  intros Hsite Hoptions Hrows.
  exists (column_configurations sp u o),
         (JS.reduce add_column ∅ (take 500 (List.filter starts_with_GtStatus rows))).
  split; [|split].
  - unfold getColumnConfigurations, async, bind, read. by rewrite Hsite, Hoptions.
  - apply then_resolved. eexists; split; [|done].
    apply then_resolved. eauto.
  - intros items k its.
    pose proof (reduce_add_column_lookup items k) as Hlookup. simpl in Hlookup.
    fold its in Hlookup. destruct (_ !! k) as [entry|]; [|done].
    destruct Hlookup as (Hits & Hname & Hcolours).
    pose proof (colours_describes its entry Hname Hcolours) as Hentry.
    split; [done|]. split; [|split; [done|]].
    + destruct its as [|item its'] eqn:Eits; [done|].
      assert (item ∈ its) as Hitem by (rewrite Eits; left).
      apply list_elem_of_filter in Hitem as [<- Hitem].
      apply elem_of_take in Hitem as (i & Hitem & _).
      apply list_elem_of_lookup_2, list_elem_of_In, filter_In in Hitem as [_ Hitem].
      exact Hitem.
    + intros first rest Hfirst Htitle. destruct Hentry as [-> _].
      rewrite Hfirst. by apply f_equal, first_nonempty_head.
Qed.
End Helpers.

Section HelpersOnSample.
Import DataAdapter.
#[local] Existing Instance Sample.models.
#[local] Existing Instance Sample.config.

Lemma searchSitesInHub_later_overwrites_witness :
  JS.outcome (search_hits Sample.platform (Querytext (hub_query "hub"))
                          (TrimDuplicates (hub_query "hub"))) = inr Sample.hits
  /\ RowLimit (hub_query "hub") = 500
  /\ exists p results _sites,
    searchSitesInHub Sample.platform "hub" Sample.adapter = (inr p, Sample.adapter) /\
    JS.outcome (search Sample.platform (hub_query "hub")) = inr results /\
    length results <= 500 /\
    JS.outcome p = inr _sites /\
    forall k,
      _sites !! k
      = SiteResult.Title <$> last (filter (fun r => SiteResult.SiteId r = k) results).
Proof.
  split; [reflexivity|].
  exact (searchSitesInHub_later_overwrites Sample.platform "hub" Sample.adapter
           Sample.hits eq_refl).
Defined.

Lemma getColumnConfigurations_entries_witness :
  site Sample.final = Some "https://hub"
  /\ getCacheOptions Sample.no_properties "column_configuration" Sample.final
     = (inr Sample.column_options, Sample.after_columns)
  /\ JS.outcome (column_rows Sample.platform "https://hub" "Project column configuration")
     = inr Sample.columns
  /\ exists p cols,
    getColumnConfigurations Sample.no_properties Sample.platform Sample.final
    = (inr p, Sample.after_columns) /\
    JS.outcome p = inr cols /\
    let items := take 500 (List.filter starts_with_GtStatus Sample.columns) in
    forall k,
      let its :=
        filter (fun item => PortfolioColumn.GtInternalName (GtPortfolioColumn item) = k)
               items in
      match cols !! k with
      | None => its = []
      | Some entry =>
          its <> [] /\ String.prefix "GtStatus" k = true /\ Spec.describes its entry /\
          forall first rest,
            its = first :: rest ->
            PortfolioColumn.Title (GtPortfolioColumn first) <> "" ->
            name entry = Some (PortfolioColumn.Title (GtPortfolioColumn first))
      end.
Proof.
  split; [reflexivity|]. split; [reflexivity|]. split; [reflexivity|].
  exact (getColumnConfigurations_entries Sample.no_properties Sample.platform
           Sample.final "https://hub" Sample.column_options Sample.after_columns
           Sample.columns eq_refl eq_refl eq_refl).
Defined.

(** C4 as it was stated fails when the first item with an internal
    name has an empty [Title]: the name of the entry is then taken from
    a later item. It fails as well for an item whose value is the name
    [__proto__]: the colors of its entry hold nothing under that
    name. *)
Lemma getColumnConfigurations_name_of_later_item :
  exists p st' cols entry first c,
    getColumnConfigurations Sample.no_properties Sample.platform Sample.final
    = (inr p, st') /\
    JS.outcome p = inr cols /\
    cols !! "GtStatusRisk" = Some entry /\
    head (filter (fun item =>
                    PortfolioColumn.GtInternalName (GtPortfolioColumn item) = "GtStatusRisk")
                 (take 500 (List.filter starts_with_GtStatus Sample.columns)))
    = Some first /\
    name entry = Some "Risk" /\
    name entry <> Some (PortfolioColumn.Title (GtPortfolioColumn first)) /\
    Sample.column "GtStatusRisk" "Risk" "__proto__" "grey"
      ∈ take 500 (List.filter starts_with_GtStatus Sample.columns) /\
    colors entry = Some c /\
    c !! "__proto__" = None.
Proof.
  eexists _, _, _, _, _, _.
  split; [reflexivity|]. split; [reflexivity|]. split; [vm_compute; reflexivity|].
  split; [reflexivity|]. split; [reflexivity|]. split; [discriminate|].
  split; [|split; [reflexivity | vm_compute; reflexivity]].
  apply list_elem_of_lookup_2 with 3. reflexivity.
Qed.
End HelpersOnSample.

(** ** Rejected requests *)

Section Rejections.
Import DataAdapter.
Context `{Models} `{Config}.
Variable property_path : string -> list string -> JS.error + string.
Variable sp : Platform.

Lemma rejection_then {A B} (f : A -> B) (p : JS.promise A) :
  Spec.rejection (JS.then_ f p) = Spec.rejection p.
Proof. unfold Spec.rejection, JS.then_; simpl. by destruct (JS.outcome p). Qed.

Lemma rejected_first_self {A} (p : JS.promise A) :
  Spec.rejected_first p (Spec.rejection p).
Proof.
  split; [done|]. intros x Hx. split; [done|]. intros y Hy.
  unfold Spec.rejection in *. destruct (JS.outcome p); [|by apply elem_of_nil in Hx].
  apply list_elem_of_singleton in Hx, Hy. by subst.
Qed.

Lemma rejected_first_then {A B} (f : A -> B) (p : JS.promise A) l :
  Spec.rejected_first p l -> Spec.rejected_first (JS.then_ f p) l.
Proof. unfold Spec.rejected_first. by rewrite rejection_then. Qed.

(** [Promise.all] is rejected as soon as one of its elements is. *)
Lemma rejected_first_all2 {A B} (p : JS.promise A) (q : JS.promise B) lp lq :
  Spec.rejected_first p lp -> Spec.rejected_first q lq ->
  Spec.rejected_first (JS.all2 p q) (lp ++ lq).
Proof.
  unfold Spec.rejected_first, Spec.rejection, JS.all2.
  intros [Hp1 Hp2] [Hq1 Hq2].
  destruct (JS.outcome p) as [ep|a], (JS.outcome q) as [eq|b];
    try case_decide; simpl in *.
  - split; [done|]. intros x ->%list_elem_of_singleton.
    destruct (Hp2 _ (list_elem_of_here _ _)) as [Hin Hmin].
    destruct (Hq2 _ (list_elem_of_here _ _)) as [Hin' Hmin'].
    split; [apply elem_of_app; by left|].
    intros y [Hy|Hy]%elem_of_app; [by apply Hmin|].
    apply Hmin' in Hy. simpl in *. lia.
  - split; [done|]. intros x ->%list_elem_of_singleton.
    destruct (Hp2 _ (list_elem_of_here _ _)) as [Hin Hmin].
    destruct (Hq2 _ (list_elem_of_here _ _)) as [Hin' Hmin'].
    split; [apply elem_of_app; by right|].
    intros y [Hy|Hy]%elem_of_app; [|by apply Hmin'].
    apply Hmin in Hy. simpl in *. lia.
  - assert (lq = []) as -> by (destruct lq; [done|]; by destruct Hq1).
    rewrite app_nil_r. done.
  - assert (lp = []) as -> by (destruct lp; [done|]; by destruct Hp1).
    done.
  - assert (lp = []) as -> by (destruct lp; [done|]; by destruct Hp1).
    done.
Qed.

(** The six requests that [fetchData] awaits together. *)
Lemma fetchData_configured config st :
  Spec.configured property_path st config ->
  fst (fetchData property_path sp config st)
  = match JS.outcome (site_Id sp (url config)) with
    | inl e => inl e
    | inr siteId =>
        match JS.outcome (field_TermSetId sp PHASE_FIELD_NAME) with
        | inl e => inl e
        | inr tsid =>
            match
              JS.outcome
                (JS.all2 (sites_in_hub sp siteId)
                (JS.all2 (JS.then_ (take 500)
                            (projects_rows sp (url config) PROJECTS_LIST_NAME))
                (JS.all2 (JS.then_ (fun rows => take 500 (order_rows (Id, false) rows))
                            (status_rows sp (url config) PROJECT_STATUS_LIST_NAME))
                (JS.all2 (JS.then_ (JS.reduce add_column ∅)
                            (JS.then_ (fun rows =>
                                         take 500 (List.filter starts_with_GtStatus rows))
                               (column_rows sp (url config)
                                  PROJECT_COLUMN_CONFIGURATION_LIST_NAME)))
                (JS.all2 (JS.then_ (take 10)
                            (section_rows sp (url config) STATUS_SECTIONS_LIST_NAME))
                         (term_set_terms sp tsid))))))
            with
            | inl e => inl e
            | inr (_sites, (_projects, (_status, (cols, (_sections, terms))))) =>
                inr {| projects :=
                         omap (to_project _sites
                                 (List.map (fun item =>
                                              newProjectStatusModel item cols _sections)
                                           _status))
                              _projects;
                       phases := List.map pick_phase (List.filter show_on_frontpage terms) |}
            end
        end
    end.
Proof.
  intros (options & Hoptions & Hformat).
  destruct st as [co u cur ks]. simpl in Hoptions. subst co.
  destruct (Hformat "phase_term_set_id") as [k1 Hk1].
  destruct (Hformat "projects") as [k2 Hk2].
  destruct (Hformat "project_status") as [k3 Hk3].
  destruct (Hformat "column_configuration") as [k4 Hk4].
  destruct (Hformat "status_sections") as [k5 Hk5].
  unfold fetchData, getPhaseFieldTermSetId, searchSitesInHub, getColumnConfigurations,
    getCacheOptions, async, bind, read, await, ret, throw,
    set_current, set_site, push_cacheKey.
  cbn -[StringFormat.format JS.all2 sites_in_hub].
  destruct (JS.outcome (site_Id sp (url config))) as [e|siteId]; [done|].
  rewrite Hk1. cbn -[StringFormat.format JS.all2 sites_in_hub].
  destruct (JS.outcome (field_TermSetId sp PHASE_FIELD_NAME)) as [e|tsid]; [done|].
  rewrite Hk2. cbn -[StringFormat.format JS.all2 sites_in_hub].
  rewrite Hk3. cbn -[StringFormat.format JS.all2 sites_in_hub].
  rewrite Hk4. cbn -[StringFormat.format JS.all2 sites_in_hub].
  rewrite Hk5. cbn -[StringFormat.format JS.all2 sites_in_hub].
  match goal with
  | |- fst (match JS.outcome ?p with _ => _ end) = match JS.outcome ?q with _ => _ end =>
      change p with q; destruct (JS.outcome q) as [e|results]
  end; [done|].
  destruct results as [_sites [_projects [_status [cols [_sections terms]]]]].
  cbn [fst]. by rewrite compact_map_eq, !JS_map_eq, JS_filter_eq.
Qed.

Lemma rejection_resolved {A} (p : JS.promise A) a :
  JS.outcome p = inr a -> Spec.rejection p = [].
Proof. unfold Spec.rejection. by intros ->. Qed.

Lemma rejection_rejected {A} (p : JS.promise A) e :
  JS.outcome p = inl e -> Spec.rejection p = [(JS.settles p, e)].
Proof. unfold Spec.rejection. by intros ->. Qed.

(** C7. When one of the requests that [fetchData] issues is rejected,
    [fetchData] is rejected as well and yields no result; and on an
    adapter whose caching is set up, so that nothing but a request can
    fail, the error is the error of a rejected request, namely of one
    that was rejected first. *)
Theorem fetchData_rejects config st :
  Spec.rejections sp config <> [] ->
  exists e st',
    fetchData property_path sp config st = (inl e, st') /\
    (Spec.configured property_path st config ->
     exists t, (t, e) ∈ Spec.rejections sp config /\
               forall y, y ∈ Spec.rejections sp config -> t <= fst y).
Proof.
  intros Hrejected.
  destruct (fetchData property_path sp config st) as [[e|r] st'] eqn:Hrun.
  - exists e, st'. split; [done|]. intros Hconfigured.
    pose proof (fetchData_configured config st Hconfigured) as Hfst.
    rewrite Hrun in Hfst. cbn [fst] in Hfst. unfold Spec.rejections.
    destruct (JS.outcome (site_Id sp (url config))) as [e0|siteId] eqn:HsiteId.
    { injection Hfst as ->. rewrite (rejection_rejected _ _ HsiteId).
      eexists. split; [left|]. by intros y ->%list_elem_of_singleton. }
    destruct (JS.outcome (field_TermSetId sp PHASE_FIELD_NAME)) as [e0|tsid] eqn:Htsid.
    { injection Hfst as ->. rewrite (rejection_rejected _ _ Htsid).
      eexists. split; [left|]. by intros y ->%list_elem_of_singleton. }
    match type of Hfst with
    | context [JS.outcome ?p] =>
        destruct (JS.outcome p) as [e0|results] eqn:Hall;
        [| by destruct results as [? [? [? [? [? ?]]]]]];
        assert (Spec.rejected_first p
                  (Spec.rejection (search_hits sp (Querytext (hub_query siteId))
                                     (TrimDuplicates (hub_query siteId)))
                   ++ Spec.rejection (projects_rows sp (url config) PROJECTS_LIST_NAME)
                   ++ Spec.rejection (status_rows sp (url config) PROJECT_STATUS_LIST_NAME)
                   ++ Spec.rejection (column_rows sp (url config)
                                        PROJECT_COLUMN_CONFIGURATION_LIST_NAME)
                   ++ Spec.rejection (section_rows sp (url config)
                                        STATUS_SECTIONS_LIST_NAME)
                   ++ Spec.rejection (term_set_terms sp tsid))) as [_ Hfirst]
    end.
    { repeat apply rejected_first_all2;
        repeat apply rejected_first_then; apply rejected_first_self. }
    injection Hfst as ->.
    eexists. apply Hfirst. rewrite (rejection_rejected _ _ Hall). left.
  - exfalso. apply Hrejected.
    apply fetchData_resolved in Hrun
      as (siteId & tsid & _sites & prows & srows & o & cols & secrows & terms
          & HsiteId & Htsid & Hsites & Hprows & Hsrows & Hcols & Hsecrows & Hterms & _).
    unfold Spec.rejections. rewrite HsiteId, Htsid.
    apply then_resolved in Hsites as (results & Hsites & _).
    apply then_resolved in Hsites as (hits & Hsites & _).
    apply then_resolved in Hcols as (items & Hcols & _).
    apply then_resolved in Hcols as (crows & Hcols & _).
    by rewrite (rejection_resolved _ _ Hsites), (rejection_resolved _ _ Hprows),
      (rejection_resolved _ _ Hsrows), (rejection_resolved _ _ Hcols),
      (rejection_resolved _ _ Hsecrows), (rejection_resolved _ _ Hterms).
Qed.

Lemma rejection_nil {A} (p : JS.promise A) :
  Spec.rejection p = [] -> exists a, JS.outcome p = inr a.
Proof. unfold Spec.rejection. destruct (JS.outcome p); [done|eauto]. Qed.

(** On an adapter whose caching is set up, [fetchData] resolves when no
    request is rejected. *)
Lemma fetchData_resolves config st :
  Spec.configured property_path st config ->
  Spec.rejections sp config = [] ->
  exists r st', fetchData property_path sp config st = (inr r, st').
Proof.
  intros Hconfigured Hnone.
  pose proof (fetchData_configured config st Hconfigured) as Hfst.
  destruct (fetchData property_path sp config st) as [[e|r] st']; [exfalso|eauto].
  cbn [fst] in Hfst. unfold Spec.rejections in Hnone.
  destruct (JS.outcome (site_Id sp (url config))) as [e0|siteId] eqn:HsiteId.
  { by rewrite (rejection_rejected _ _ HsiteId) in Hnone. }
  destruct (JS.outcome (field_TermSetId sp PHASE_FIELD_NAME)) as [e0|tsid] eqn:Htsid.
  { by rewrite (rejection_rejected _ _ Htsid) in Hnone. }
  repeat (apply app_eq_nil in Hnone as [?%rejection_nil Hnone]).
  apply rejection_nil in Hnone.
  destruct_and?. repeat match goal with H : exists _, _ |- _ => destruct H end.
  match type of Hfst with
  | context [JS.outcome ?p] =>
      assert (exists results, JS.outcome p = inr results) as [results Hall]
  end.
  { eexists (_, (_, (_, (_, (_, _))))).
    repeat (apply all2_resolved; split); try apply then_resolved; eauto.
    - eexists; split; [|done]. unfold search. apply then_resolved; eauto.
    - eexists; split; [|done]. apply then_resolved; eauto. }
  rewrite Hall in Hfst. by destruct results as [? [? [? [? [? ?]]]]].
Qed.
End Rejections.

Section RejectionsOnSample.
Import DataAdapter.
#[local] Existing Instance Sample.models.
#[local] Existing Instance Sample.config.

(** After [usingCaching] with a brace-free alias the adapter is set up
    for every portfolio. *)
Lemma usingCaching_configured property_path exp alias st config :
  StringFormat.brace_free alias = true ->
  Spec.configured property_path (usingCaching exp alias st) config.
Proof.
  intros Hfree. eexists; split; [reflexivity|]. intros k. eexists.
  by apply format_cache_key.
Qed.

Lemma sample_configured :
  Spec.configured Sample.no_properties Sample.adapter Sample.portfolio.
Proof. by apply usingCaching_configured. Qed.

(** On the failing platform the term store is rejected before the
    status list, and [fetchData] is rejected with its error. *)
Lemma sample_rejected :
  fst (fetchData Sample.no_properties Sample.failing_platform Sample.portfolio
                 Sample.adapter)
  = inl (JS.RequestError 404 "Not Found").
Proof. vm_compute. reflexivity. Qed.

Lemma fetchData_rejects_witness :
  Spec.rejections Sample.failing_platform Sample.portfolio <> []
  /\ exists e st',
    fetchData Sample.no_properties Sample.failing_platform Sample.portfolio Sample.adapter
    = (inl e, st') /\
    (Spec.configured Sample.no_properties Sample.adapter Sample.portfolio ->
     exists t, (t, e) ∈ Spec.rejections Sample.failing_platform Sample.portfolio /\
               forall y, y ∈ Spec.rejections Sample.failing_platform Sample.portfolio ->
                         t <= fst y).
Proof.
  assert (Spec.rejections Sample.failing_platform Sample.portfolio <> [])
    as Hrejected by discriminate.
  split; [exact Hrejected|].
  exact (fetchData_rejects Sample.no_properties Sample.failing_platform
           Sample.portfolio Sample.adapter Hrejected).
Defined.
End RejectionsOnSample.

(** ** The status column *)

Section StatusColumnProperties.
Import StatusColumn.
Context `{Models}.
Variable styles_root : string.

(** What the component puts into [styles.root] of an icon. *)
Lemma icons_StatusColumn properties status :
  icons (StatusColumn styles_root properties status)
  = List.map (fun s =>
                (fieldName s, iconName s,
                 {| root_color := color s;
                    paddingRight := JS.or (columnIconGap properties) (JS.Num 8);
                    fontSize := columnIconSize properties |}))
             (sections status).
Proof.
  unfold StatusColumn. cbn [icons]. rewrite JS_map_eq, app_nil_r.
  induction (sections status) as [|s ss IH]; [done|].
  cbn [List.map icons app]. by rewrite IH.
Qed.

(** C6. The component renders a tooltip host whose tooltip content is
    the status tooltip of the status, and inside the host one icon per
    section of the status, in the order of the sections, each with the
    [iconName] of its section as icon and the [color] of its section as
    colour. *)
Theorem StatusColumn_renders_sections properties status :
  is_Some (host_hidden (StatusColumn styles_root properties status)) /\
  tooltip_content (StatusColumn styles_root properties status)
  = Some (StatusColumnTooltip status) /\
  List.map (fun icon => (snd (fst icon), root_color (snd icon)))
           (icons (StatusColumn styles_root properties status))
  = List.map (fun s => (iconName s, color s)) (sections status).
Proof.
  split; [by eexists|]. split; [done|].
  rewrite icons_StatusColumn, List.map_map. reflexivity.
Qed.

(** C8. The tooltip host is hidden exactly when [showTooltip] is falsy,
    and the icons do not depend on [showTooltip]: whatever its value,
    there is one icon per section. *)
Theorem StatusColumn_hidden_tooltip properties status :
  (host_hidden (StatusColumn styles_root properties status) = Some true
   <-> JS.truthy (showTooltip properties) = false) /\
  (forall v,
     icons (StatusColumn styles_root
              {| showTooltip := v;
                 columnIconGap := columnIconGap properties;
                 columnIconSize := columnIconSize properties |} status)
     = icons (StatusColumn styles_root properties status)) /\
  length (icons (StatusColumn styles_root properties status))
  = length (sections status).
Proof.
  split; [|split].
  - simpl. destruct (JS.truthy _); split; intros; by simplify_eq.
  - intros v. by rewrite !icons_StatusColumn.
  - by rewrite icons_StatusColumn, length_map.
Qed.

(** C9. There is one icon per section of the status, and the right
    padding of each of them is [columnIconGap] when that is truthy and 8
    otherwise; with a [columnIconGap] of 0 it is 8. *)
Theorem StatusColumn_icon_gap properties status :
  List.map (fun icon => paddingRight (snd icon))
           (icons (StatusColumn styles_root properties status))
  = List.map (fun _ => if JS.truthy (columnIconGap properties)
                       then columnIconGap properties
                       else JS.Num 8)
             (sections status) /\
  List.map (fun icon => paddingRight (snd icon))
           (icons (StatusColumn styles_root
                     {| showTooltip := showTooltip properties;
                        columnIconGap := JS.Num 0;
                        columnIconSize := columnIconSize properties |} status))
  = List.map (fun _ => JS.Num 8) (sections status).
Proof.
  rewrite !icons_StatusColumn, !List.map_map. split; reflexivity.
Qed.
End StatusColumnProperties.

(** The sample status with the tooltip switched off and a gap of 0: both
    icons are there, each with a right padding of 8, and the host is
    hidden. *)
Lemma sample_status_column :
  StatusColumn.icons (H := Sample.models)
    (StatusColumn.StatusColumn "root" Sample.properties Sample.status)
  = [ ("GtStatusRisk", "Warning",
       {| StatusColumn.root_color := "red";
          StatusColumn.paddingRight := JS.Num 8;
          StatusColumn.fontSize := JS.Num 14 |});
      ("GtStatusTime", "Clock",
       {| StatusColumn.root_color := "green";
          StatusColumn.paddingRight := JS.Num 8;
          StatusColumn.fontSize := JS.Num 14 |}) ]
  /\ StatusColumn.host_hidden (H := Sample.models)
       (StatusColumn.StatusColumn "root" Sample.properties Sample.status)
     = Some true.
Proof. split; reflexivity. Qed.

(** * Part III: further properties *)

(** ** More on the cache keys *)

Section MoreCacheKeys.
Import JS StringFormat DataAdapter.
Variable property_path : string -> list string -> error + string.

(** [getCacheOptions] on given caching options and a given current
    portfolio, by what [format] makes of the template. *)
Lemma getCacheOptions_run k st options config :
  cacheOptions st = Some options ->
  current st = Some config ->
  getCacheOptions property_path k st
  = match format property_path (key options) [id config; k] with
    | inl e => (inl e, st)
    | inr cacheKey =>
        (inr {| expiration := expiration options; key := cacheKey |},
         {| cacheOptions := cacheOptions st; site := site st; current := current st;
            cacheKeys := cacheKeys st ++ [cacheKey] |})
    end.
Proof.
  intros Hoptions Hcurrent. destruct st as [co u cur ks]. simpl in *. subst co cur.
  unfold getCacheOptions, bind, read. cbn -[format].
  by destruct (format _ _ _).
Qed.

(** X1. A call of [getCacheOptions] that throws leaves the adapter as it
    was; a call that returns options has appended the key of these
    options, and nothing else, to [cacheKeys], has left the other fields
    alone, and returns the expiration of the adapter's caching
    options. *)
Theorem getCacheOptions_all_or_nothing k st :
  match getCacheOptions property_path k st with
  | (inl _, st') => st' = st
  | (inr o, st') =>
      cacheKeys st' = cacheKeys st ++ [key o] /\
      cacheOptions st' = cacheOptions st /\ site st' = site st /\
      current st' = current st /\
      expiration <$> cacheOptions st = Some (expiration o)
  end.
Proof.
  unfold getCacheOptions, bind, read, throw, push_cacheKey, ret.
  destruct (cacheOptions st) as [options|] eqn:Hoptions; [|done].
  destruct (current st) as [config|] eqn:Hconfig; [|done].
  destruct (format _ _ _); [done|]. by repeat split.
Qed.

(** X2. Before [usingCaching] or before the first [fetchData], that is
    without caching options or without a current portfolio,
    [getCacheOptions] throws a [TypeError] and records no key. *)
Theorem getCacheOptions_unprepared k st :
  cacheOptions st = None \/ current st = None ->
  getCacheOptions property_path k st = (inl TypeError, st).
Proof.
  unfold getCacheOptions, bind, read.
  destruct (cacheOptions st) as [options|] eqn:Hoptions; [|done].
  destruct (current st) as [config|] eqn:Hconfig; [|done].
  by intros [?|?].
Qed.

Lemma append_assoc (a b c : string) : (a +:+ b) +:+ c = a +:+ (b +:+ c).
Proof.
  induction a as [|x a IH]; [done|].
  change (String x ((a +:+ b) +:+ c) = String x (a +:+ (b +:+ c))). by rewrite IH.
Qed.

Lemma append_cancel_l (s x y : string) : s +:+ x = s +:+ y -> x = y.
Proof.
  induction s as [|c s IH]; [done|].
  change (String c (s +:+ x) = String c (s +:+ y) -> x = y).
  intros [= Heq]. auto.
Qed.

(** A string without underscores ends at the first underscore of what
    it is followed by. *)
Lemma underscore_split (a a' b b' : string) :
  Keys.underscore_free a = true -> Keys.underscore_free a' = true ->
  a +:+ "_" +:+ b = a' +:+ "_" +:+ b' -> a = a' /\ b = b'.
Proof.
  revert a'. induction a as [|c a IH]; intros [|c' a'] Ha Ha'.
  - change (String "_" b = String "_" b' -> "" = "" /\ b = b'). by intros [= ->].
  - change (String "_" b = String c' (a' +:+ "_" +:+ b') -> "" = String c' a' /\ b = b').
    intros [= <- _]. simpl in Ha'. discriminate.
  - change (String c (a +:+ "_" +:+ b) = String "_" b' -> String c a = "" /\ b = b').
    intros [= -> _]. simpl in Ha. discriminate.
  - change (String c (a +:+ "_" +:+ b) = String c' (a' +:+ "_" +:+ b')
            -> String c a = String c' a' /\ b = b').
    intros [= -> Heq]. simpl in Ha, Ha'.
    destruct (andb_prop _ _ Ha) as [_ Ha0]. destruct (andb_prop _ _ Ha') as [_ Ha0'].
    destruct (IH a' Ha0 Ha0' Heq) as [-> ->]. done.
Qed.

(** X3. Under one alias without braces, two calls of [getCacheOptions]
    that differ in the id of the current portfolio or in the key give
    different cache keys, provided that no underscore occurs in the ids:
    the entries of two portfolios never share a cache key. *)
Theorem getCacheOptions_keys_differ alias e1 e2 c1 c2 k1 k2 st1 st2 st01 st02 :
  brace_free alias = true ->
  Keys.underscore_free (id c1) = true ->
  Keys.underscore_free (id c2) = true ->
  cacheOptions st1 = cacheOptions (usingCaching e1 alias st01) ->
  cacheOptions st2 = cacheOptions (usingCaching e2 alias st02) ->
  current st1 = Some c1 ->
  current st2 = Some c2 ->
  (id c1, k1) <> (id c2, k2) ->
  exists o1 o2 st1' st2',
    getCacheOptions property_path k1 st1 = (inr o1, st1') /\
    getCacheOptions property_path k2 st2 = (inr o2, st2') /\
    key o1 <> key o2.
Proof.
  intros Hfree Hid1 Hid2 Ho1 Ho2 Hc1 Hc2 Hdiffer.
  rewrite (getCacheOptions_run k1 st1 _ c1 Ho1 Hc1).
  rewrite (getCacheOptions_run k2 st2 _ c2 Ho2 Hc2).
  cbn [key]. rewrite !format_cache_key by done.
  eexists _, _, _, _. split; [done|]. split; [done|]. cbn [key].
  intros Heq. apply append_cancel_l in Heq.
  change ("_" +:+ ?x) with (String "_" x) in Heq. injection Heq as Heq.
  apply underscore_split in Heq as [Hid Hk]; [|done..].
  apply Hdiffer. by rewrite Hid, Hk.
Qed.

End MoreCacheKeys.

Section MoreCacheKeysOnSample.
Import JS StringFormat DataAdapter.

Lemma getCacheOptions_unprepared_witness :
  (cacheOptions Sample.adapter = None \/ current Sample.adapter = None)
  /\ getCacheOptions Sample.no_properties "projects" Sample.adapter
     = (inl TypeError, Sample.adapter).
Proof.
  assert (cacheOptions Sample.adapter = None \/ current Sample.adapter = None)
    as Hunprepared by (right; reflexivity).
  split; [exact Hunprepared|].
  exact (getCacheOptions_unprepared Sample.no_properties "projects" Sample.adapter Hunprepared).
Defined.

Lemma getCacheOptions_keys_differ_witness :
  exists o1 o2 st1' st2',
    getCacheOptions Sample.no_properties "projects" Cases.current_adapter = (inr o1, st1') /\
    getCacheOptions Sample.no_properties "projects" Cases.other_current_adapter
    = (inr o2, st2') /\
    key o1 <> key o2.
Proof.
  apply (getCacheOptions_keys_differ Sample.no_properties "projectoverview" 3600 3600
           Sample.portfolio Cases.other_portfolio "projects" "projects"
           Cases.current_adapter Cases.other_current_adapter initial initial);
    try reflexivity.
  discriminate.
Defined.
End MoreCacheKeysOnSample.

Section EmptyField.
Import JS StringFormat DataAdapter.
Variable property_path : string -> list string -> error + string.

(** An empty replacement field takes the first argument and switches
    the numbering to implicit. *)
Lemma scan_empty_field (a : string) (rest : list string) (t : string) :
  scan property_path (a :: rest) 0 (UNDEFINED, 0) (String "{" (String "}" t))
  = match scan property_path (a :: rest) 0 (IMPLICIT, 1) t with
    | inl e => inl e
    | inr out => inr (a +:+ out)
    end.
Proof.
  cbn [scan is_brace Ascii.eqb Bool.eqb orb andb field is_line_terminator].
  change (replacement property_path (a :: rest) (UNDEFINED, 0) "" None)
    with (inr (A := error) (a, (IMPLICIT, 1))).
  replace (String.length (String "}" t) - String.length t) with 1
    by (cbn [String.length]; lia).
  reflexivity.
Qed.

Lemma format_empty_field (pre post a b : string) :
  brace_free pre = true -> brace_free post = true ->
  format property_path ((pre +:+ "{}" +:+ post) +:+ "_{0}_{1}") [a; b]
  = inl (ValueError "cannot switch from implicit to explicit numbering").
Proof.
  intros Hpre Hpost. unfold format.
  rewrite !append_assoc, scan_brace_free by done.
  change ("{}" +:+ ?t) with (String "{" (String "}" t)).
  rewrite scan_empty_field, scan_brace_free by done.
  reflexivity.
Qed.

(** X4. With an alias that holds an empty replacement field [{}]
    between texts without braces, the template of [usingCaching] mixes
    implicit and explicit numbering: every [getCacheOptions] throws the
    [ValueError] of [format] and records no key. *)
Theorem getCacheOptions_empty_field exp pre post config k st0 st :
  brace_free pre = true ->
  brace_free post = true ->
  cacheOptions st = cacheOptions (usingCaching exp (pre +:+ "{}" +:+ post) st0) ->
  current st = Some config ->
  getCacheOptions property_path k st
  = (inl (ValueError "cannot switch from implicit to explicit numbering"), st).
Proof.
  intros Hpre Hpost Hoptions Hcurrent.
  rewrite (getCacheOptions_run property_path k st _ config Hoptions Hcurrent).
  cbn [key]. by rewrite format_empty_field.
Qed.
End EmptyField.

Lemma getCacheOptions_empty_field_witness :
  DataAdapter.getCacheOptions Sample.no_properties "projects" Cases.adapter_with_empty_field
  = (inl (JS.ValueError "cannot switch from implicit to explicit numbering"),
     Cases.adapter_with_empty_field).
Proof.
  apply (getCacheOptions_empty_field Sample.no_properties 3600 "x" "y" Sample.portfolio
           "projects" DataAdapter.initial);
    reflexivity.
Defined.

(** ** More on [fetchData] *)

Section MoreFetchData.
Import DataAdapter.
Context `{Models} `{Config}.
Variable property_path : string -> list string -> JS.error + string.
Variable sp : Platform.

(** X5. When the site of the portfolio cannot be read, [fetchData] is
    rejected with the error of that request, whether caching is set up
    or not, and it has recorded no cache key; the portfolio is the
    current one all the same. *)
Theorem fetchData_site_rejected config st e :
  JS.outcome (site_Id sp (url config)) = inl e ->
  fetchData property_path sp config st
  = (inl e, {| cacheOptions := cacheOptions st; site := Some (url config);
               current := Some config; cacheKeys := cacheKeys st |}).
Proof.
  intros Hsite.
  unfold fetchData, bind, set_current, set_site, read, await.
  cbn [current site url]. by rewrite Hsite.
Qed.

(** X6. On an adapter on which [usingCaching] was never called,
    [fetchData] is rejected with a [TypeError] as soon as the site has
    answered, before any list, search or term store request is issued,
    and it records no cache key. *)
Theorem fetchData_without_caching config st siteId :
  cacheOptions st = None ->
  JS.outcome (site_Id sp (url config)) = inr siteId ->
  fetchData property_path sp config st
  = (inl JS.TypeError, {| cacheOptions := None; site := Some (url config);
                          current := Some config; cacheKeys := cacheKeys st |}).
Proof.
  intros Hnone Hsite.
  unfold fetchData, getPhaseFieldTermSetId, getCacheOptions,
    bind, set_current, set_site, read, await.
  cbn [current site url cacheOptions]. by rewrite Hsite, Hnone.
Qed.
End MoreFetchData.

Section FetchDataFields.
Import DataAdapter.
Context `{Models} `{Config}.
Variable property_path : string -> list string -> JS.error + string.
Variable sp : Platform.


End FetchDataFields.


Section FetchDataInvariants.
Import DataAdapter.
Context `{Models} `{Config}.
Variable property_path : string -> list string -> JS.error + string.
Variable sp : Platform.






Lemma fetchData_resolved_none_rejected config st r st' :
  fetchData property_path sp config st = (inr r, st') ->
  Spec.rejections sp config = [].
Proof.
  intros Hrun.
  apply fetchData_resolved in Hrun
    as (siteId & tsid & _sites & prows & srows & o & cols & secrows & terms
        & HsiteId & Htsid & Hsites & Hprows & Hsrows & Hcols & Hsecrows & Hterms & _).
  unfold Spec.rejections. rewrite HsiteId, Htsid.
  apply then_resolved in Hsites as (results & Hsites & _).
  apply then_resolved in Hsites as (hits & Hsites & _).
  apply then_resolved in Hcols as (items & Hcols & _).
  apply then_resolved in Hcols as (crows & Hcols & _).
  by rewrite (rejection_resolved _ _ Hsites), (rejection_resolved _ _ Hprows),
    (rejection_resolved _ _ Hsrows), (rejection_resolved _ _ Hcols),
    (rejection_resolved _ _ Hsecrows), (rejection_resolved _ _ Hterms).
Qed.

(** X10. On an adapter whose caching is set up, [fetchData] resolves
    exactly when none of the requests it issues is rejected. *)
Theorem fetchData_resolves_iff config st :
  Spec.configured property_path st config ->
  (exists r st', fetchData property_path sp config st = (inr r, st'))
  <-> Spec.rejections sp config = [].
Proof.
  intros Hconfigured. split.
  - intros (r & st' & Hrun). by eapply fetchData_resolved_none_rejected.
  - by apply fetchData_resolves.
Qed.

(** X11. Every project that [fetchData] returns has been given as its
    title what reading the object of the hub's sites at its site id
    gives, and that is truthy: either the title that the object holds
    for the id, which is then not empty, or, when the id is no key of
    the object but names a property of [Object.prototype], that
    inherited property. A project whose site has an empty title among
    the search results is dropped like one whose site is missing. *)
Theorem fetchData_projects_titled config st r st' :
  fetchData property_path sp config st = (inr r, st') ->
  exists siteId _sites,
    JS.outcome (site_Id sp (url config)) = inr siteId /\
    JS.outcome (sites_in_hub sp siteId) = inr _sites /\
    forall p, p ∈ projects r ->
      exists item statuses title,
        p = setTitle (newProjectModel item statuses) title /\
        ((exists t, title = JS.Own t /\ t <> "" /\
                    _sites !! project_siteId (newProjectModel item statuses) = Some t)
         \/ (title = JS.Inherited (project_siteId (newProjectModel item statuses)) /\
             _sites !! project_siteId (newProjectModel item statuses) = None /\
             project_siteId (newProjectModel item statuses) ∈ JS.object_prototype)).
Proof.
  intros Hrun.
  apply fetchData_resolved in Hrun
    as (siteId & tsid & _sites & prows & srows & o & cols & secrows & terms
        & HsiteId & _ & Hsites & _ & _ & _ & _ & _ & ->).
  exists siteId, _sites. split; [done|]. split; [done|].
  intros p (item & _ & Hkept)%list_elem_of_omap.
  revert Hkept. unfold to_project.
  set (project := newProjectModel item _).
  pose proof (get_cases _sites (project_siteId project)) as Hget.
  destruct (JS.get _sites (project_siteId project)) as [t|k|]; simpl; [| |done].
  - destruct (String.eqb_spec t ""); [done|]. intros [= <-].
    eexists _, _, _. split; [reflexivity|]. left. eauto.
  - destruct Hget as (-> & Hnone & Hin). intros [= <-].
    eexists _, _, _. split; [reflexivity|]. right. eauto.
Qed.

Lemma length_omap_le {A B} (f : A -> option B) (xs : list A) :
  length (omap f xs) <= length xs.
Proof.
  induction xs as [|x xs IH]; [done|]. cbn [omap list_omap].
  destruct (f x); simpl; lia.
Qed.

(** X12. [fetchData] returns at most 500 projects, never more than
    there are rows in the projects list, and never more phases than the
    term set has terms. *)
Theorem fetchData_bounds config st r st' :
  fetchData property_path sp config st = (inr r, st') ->
  exists prows tsid terms,
    JS.outcome (projects_rows sp (url config) PROJECTS_LIST_NAME) = inr prows /\
    JS.outcome (field_TermSetId sp PHASE_FIELD_NAME) = inr tsid /\
    JS.outcome (term_set_terms sp tsid) = inr terms /\
    length (projects r) <= 500 /\
    length (projects r) <= length prows /\
    length (phases r) <= length terms.
Proof.
  intros Hrun.
  apply fetchData_resolved in Hrun
    as (siteId & tsid & _sites & prows & srows & o & cols & secrows & terms
        & _ & Htsid & _ & Hprows & _ & _ & _ & Hterms & ->).
  exists prows, tsid, terms. split; [done|]. split; [done|]. split; [done|].
  cbn [projects phases].
  pose proof (length_omap_le
                (to_project _sites
                   (List.map (fun item => newProjectStatusModel item cols (take 10 secrows))
                             (take 500 (order_rows (Id, false) srows))))
                (take 500 prows)) as Hlen.
  rewrite length_take in Hlen.
  rewrite length_map.
  pose proof (List.filter_length_le show_on_frontpage terms).
  repeat split; lia.
Qed.
End FetchDataInvariants.

Section MoreFetchDataOnSample.
Import DataAdapter.
#[local] Existing Instance Sample.models.
#[local] Existing Instance Sample.config.

Lemma fetchData_site_rejected_witness :
  JS.outcome (site_Id Cases.offline_platform (url Sample.portfolio))
  = inl (JS.RequestError 0 "Failed to fetch")
  /\ fetchData Sample.no_properties Cases.offline_platform Sample.portfolio Sample.adapter
     = (inl (JS.RequestError 0 "Failed to fetch"),
        {| cacheOptions := cacheOptions Sample.adapter;
           site := Some (url Sample.portfolio);
           current := Some Sample.portfolio;
           cacheKeys := cacheKeys Sample.adapter |}).
Proof.
  split; [reflexivity|].
  exact (fetchData_site_rejected Sample.no_properties Cases.offline_platform
           Sample.portfolio Sample.adapter _ eq_refl).
Defined.

Lemma fetchData_without_caching_witness :
  cacheOptions initial = None
  /\ JS.outcome (site_Id Sample.platform (url Sample.portfolio)) = inr "hub"
  /\ fetchData Sample.no_properties Sample.platform Sample.portfolio initial
     = (inl JS.TypeError,
        {| cacheOptions := None; site := Some (url Sample.portfolio);
           current := Some Sample.portfolio; cacheKeys := cacheKeys initial |}).
Proof.
  split; [reflexivity|]. split; [reflexivity|].
  exact (fetchData_without_caching Sample.no_properties Sample.platform
           Sample.portfolio initial "hub" eq_refl eq_refl).
Defined.


Lemma fetchData_resolves_iff_witness :
  Spec.configured Sample.no_properties Sample.adapter Sample.portfolio
  /\ ((exists r st',
         fetchData Sample.no_properties Sample.platform Sample.portfolio Sample.adapter
         = (inr r, st'))
      <-> Spec.rejections Sample.platform Sample.portfolio = []).
Proof.
  split; [exact sample_configured|].
  exact (fetchData_resolves_iff Sample.no_properties Sample.platform
           Sample.portfolio Sample.adapter sample_configured).
Defined.

Lemma fetchData_projects_titled_witness :
  fetchData Sample.no_properties Sample.platform Sample.portfolio Sample.adapter
  = (inr Sample.result, Sample.final)
  /\ exists siteId _sites,
    JS.outcome (site_Id Sample.platform (url Sample.portfolio)) = inr siteId /\
    JS.outcome (sites_in_hub Sample.platform siteId) = inr _sites /\
    forall p, p ∈ projects Sample.result ->
      exists item statuses title,
        p = setTitle (newProjectModel item statuses) title /\
        ((exists t, title = JS.Own t /\ t <> "" /\
                    _sites !! project_siteId (newProjectModel item statuses) = Some t)
         \/ (title = JS.Inherited (project_siteId (newProjectModel item statuses)) /\
             _sites !! project_siteId (newProjectModel item statuses) = None /\
             project_siteId (newProjectModel item statuses) ∈ JS.object_prototype)).
Proof.
  split; [exact sample_fetched|].
  exact (fetchData_projects_titled Sample.no_properties Sample.platform
           Sample.portfolio Sample.adapter Sample.result Sample.final sample_fetched).
Defined.

Lemma fetchData_bounds_witness :
  fetchData Sample.no_properties Sample.platform Sample.portfolio Sample.adapter
  = (inr Sample.result, Sample.final)
  /\ exists prows tsid terms,
    JS.outcome (projects_rows Sample.platform (url Sample.portfolio) PROJECTS_LIST_NAME)
    = inr prows /\
    JS.outcome (field_TermSetId Sample.platform PHASE_FIELD_NAME) = inr tsid /\
    JS.outcome (term_set_terms Sample.platform tsid) = inr terms /\
    length (projects Sample.result) <= 500 /\
    length (projects Sample.result) <= length prows /\
    length (phases Sample.result) <= length terms.
Proof.
  split; [exact sample_fetched|].
  exact (fetchData_bounds Sample.no_properties Sample.platform
           Sample.portfolio Sample.adapter Sample.result Sample.final sample_fetched).
Defined.
End MoreFetchDataOnSample.

(** ** More on the two objects built by [reduce] *)

Section MoreReduce.
Import DataAdapter.

Lemma size_insert_le {A} (m : gmap string A) (k : string) (x : A) :
  size (<[k := x]> m) <= S (size m).
Proof. rewrite map_size_insert. destruct (m !! k); simpl; lia. Qed.

Lemma size_reduce_add_site (results : list SiteResult.t) :
  size (JS.reduce add_site ∅ results) <= length results.
Proof.
  induction results as [|r results IH] using rev_ind; [done|].
  rewrite reduce_snoc, length_app. unfold add_site at 1.
  pose proof (size_insert_le (JS.reduce add_site ∅ results)
                (SiteResult.SiteId r) (SiteResult.Title r)).
  change (length [r]) with 1. lia.
Qed.

Lemma size_reduce_add_column (items : list IPortfolioColumnConfigurationItem) :
  size (JS.reduce add_column ∅ items) <= length items.
Proof.
  induction items as [|x items IH] using rev_ind; [done|].
  rewrite reduce_snoc, length_app. unfold add_column at 1. cbv zeta.
  match goal with
  | |- size (<[?k := ?e]> ?m) <= _ => pose proof (size_insert_le m k e)
  end.
  change (length [x]) with 1. lia.
Qed.

Lemma filter_nonempty {A} (P : A -> Prop) `{!forall x, Decision (P x)} (xs : list A) :
  filter P xs <> [] <-> exists x, x ∈ xs /\ P x.
Proof.
  split.
  - destruct (filter P xs) as [|x l] eqn:Hfilter; [done|]. intros _.
    assert (x ∈ filter P xs) as Hin by (rewrite Hfilter; left).
    apply list_elem_of_filter in Hin as [HP Hin]. eauto.
  - intros (x & Hx & HP) Hnil.
    assert (x ∈ filter P xs) as Hin by by apply list_elem_of_filter.
    rewrite Hnil in Hin. by apply elem_of_nil in Hin.
Qed.

(** Colors are empty exactly when every assignment went to the setter
    of the prototype. *)
Lemma colours_empty (its : list IPortfolioColumnConfigurationItem)
    (c : gmap string string) :
  Spec.colours its c ->
  c = ∅ <-> Forall (fun item => GtPortfolioColumnValue item = "__proto__") its.
Proof.
  intros Hc. split.
  - intros ->. apply Forall_forall. intros item Hitem.
    destruct (decide (GtPortfolioColumnValue item = "__proto__")) as [|Hv]; [done|].
    exfalso. specialize (Hc (GtPortfolioColumnValue item)).
    rewrite lookup_empty in Hc. case_decide; [done|].
    assert (filter (fun x => GtPortfolioColumnValue x = GtPortfolioColumnValue item) its
            <> []) as Hsome by (apply filter_nonempty; eauto).
    apply (last_is_Some (A := IPortfolioColumnConfigurationItem)) in Hsome as [x Hx].
    by rewrite Hx in Hc.
  - intros Hall. apply map_eq. intros v. rewrite Hc, lookup_empty.
    case_decide as Hv; [done|].
    destruct (filter _ its) as [|x l] eqn:Hfilter; [done|]. exfalso.
    assert (x ∈ filter (fun x => GtPortfolioColumnValue x = v) its) as Hin
      by (rewrite Hfilter; left).
    apply list_elem_of_filter in Hin as [Hx Hin].
    rewrite Forall_forall in Hall. apply Hall in Hin. congruence.
Qed.
End MoreReduce.

Section MoreHelpers.
Import DataAdapter.
Context `{Models} `{Config}.
Variable property_path : string -> list string -> JS.error + string.
Variable sp : Platform.

(** X13. The object that [searchSitesInHub] resolves to has as its keys
    exactly the site ids of the first 500 search results, so it has at
    most 500 keys; a site beyond these results is not a key. *)
Theorem searchSitesInHub_keys siteId st hits :
  JS.outcome (search_hits sp (Querytext (hub_query siteId))
                             (TrimDuplicates (hub_query siteId))) = inr hits ->
  exists p _sites,
    searchSitesInHub sp siteId st = (inr p, st) /\
    JS.outcome p = inr _sites /\
    (forall k, is_Some (_sites !! k)
               <-> exists hit, hit ∈ take 500 hits /\ SiteResult.SiteId hit = k) /\
    size _sites <= 500.
Proof.
  intros Hhits.
  exists (sites_in_hub sp siteId), (JS.reduce add_site ∅ (take 500 hits)).
  split; [done|]. split; [|split].
  - apply then_resolved. eexists; split; [|done]. apply then_resolved. eauto.
  - intros k. rewrite reduce_add_site_lookup, fmap_is_Some, last_is_Some.
    apply filter_nonempty.
  - pose proof (size_reduce_add_site (take 500 hits)) as Hsize.
    rewrite length_take in Hsize. lia.
Qed.

(** X14. In the object that [getColumnConfigurations] resolves to, every
    entry has both a name and colors: no entry is left half built. The
    colors never get an own property [__proto__], and they are empty
    exactly when every item of the entry has the value [__proto__],
    whose assignment stores nothing. The object has at most 500
    entries, and it is empty when no internal name starts with
    [GtStatus]. *)
Theorem getColumnConfigurations_complete st u o st1 rows :
  site st = Some u ->
  getCacheOptions property_path "column_configuration" st = (inr o, st1) ->
  JS.outcome (column_rows sp u PROJECT_COLUMN_CONFIGURATION_LIST_NAME) = inr rows ->
  exists p cols,
    getColumnConfigurations property_path sp st = (inr p, st1) /\
    JS.outcome p = inr cols /\
    (forall k entry, cols !! k = Some entry ->
       exists n c,
         name entry = Some n /\ colors entry = Some c /\
         c !! "__proto__" = None /\
         (c = ∅
          <-> Forall (fun item => GtPortfolioColumnValue item = "__proto__")
                     (filter (fun item =>
                                PortfolioColumn.GtInternalName (GtPortfolioColumn item) = k)
                             (take 500 (List.filter starts_with_GtStatus rows))))) /\
    size cols <= 500 /\
    (List.filter starts_with_GtStatus rows = [] -> cols = ∅).
Proof.
  intros Hsite Hoptions Hrows.
  exists (column_configurations sp u o),
         (JS.reduce add_column ∅ (take 500 (List.filter starts_with_GtStatus rows))).
  split; [|split; [|split; [|split]]].
  - unfold getColumnConfigurations, async, bind, read. by rewrite Hsite, Hoptions.
  - apply then_resolved. eexists; split; [|done]. apply then_resolved. eauto.
  - intros k entry Hentry.
    pose proof (reduce_add_column_lookup
                  (take 500 (List.filter starts_with_GtStatus rows)) k) as Hlookup.
    simpl in Hlookup. rewrite Hentry in Hlookup.
    destruct Hlookup as (_ & Hname & c & Hc & Hcolours).
    eexists _, c. split; [done|]. split; [done|]. split.
    + rewrite Hcolours. by case_decide.
    + by apply colours_empty.
  - pose proof (size_reduce_add_column
                  (take 500 (List.filter starts_with_GtStatus rows))) as Hsize.
    rewrite length_take in Hsize. lia.
  - by intros ->.
Qed.
End MoreHelpers.

Section MoreHelpersOnSample.
Import DataAdapter.
#[local] Existing Instance Sample.models.
#[local] Existing Instance Sample.config.

Lemma searchSitesInHub_keys_witness :
  JS.outcome (search_hits Sample.platform (Querytext (hub_query "hub"))
                          (TrimDuplicates (hub_query "hub"))) = inr Sample.hits
  /\ exists p _sites,
    searchSitesInHub Sample.platform "hub" Sample.adapter = (inr p, Sample.adapter) /\
    JS.outcome p = inr _sites /\
    (forall k, is_Some (_sites !! k)
               <-> exists hit, hit ∈ take 500 Sample.hits /\ SiteResult.SiteId hit = k) /\
    size _sites <= 500.
Proof.
  split; [reflexivity|].
  exact (searchSitesInHub_keys Sample.platform "hub" Sample.adapter Sample.hits eq_refl).
Defined.

Lemma getColumnConfigurations_complete_witness :
  site Sample.final = Some "https://hub"
  /\ getCacheOptions Sample.no_properties "column_configuration" Sample.final
     = (inr Sample.column_options, Sample.after_columns)
  /\ JS.outcome (column_rows Sample.platform "https://hub" "Project column configuration")
     = inr Sample.columns
  /\ exists p cols,
    getColumnConfigurations Sample.no_properties Sample.platform Sample.final
    = (inr p, Sample.after_columns) /\
    JS.outcome p = inr cols /\
    (forall k entry, cols !! k = Some entry ->
       exists n c,
         name entry = Some n /\ colors entry = Some c /\
         c !! "__proto__" = None /\
         (c = ∅
          <-> Forall (fun item => GtPortfolioColumnValue item = "__proto__")
                     (filter (fun item =>
                                PortfolioColumn.GtInternalName (GtPortfolioColumn item) = k)
                             (take 500 (List.filter starts_with_GtStatus Sample.columns))))) /\
    size cols <= 500 /\
    (List.filter starts_with_GtStatus Sample.columns = [] -> cols = ∅).
Proof.
  split; [reflexivity|]. split; [reflexivity|]. split; [reflexivity|].
  exact (getColumnConfigurations_complete Sample.no_properties Sample.platform
           Sample.final "https://hub" Sample.column_options Sample.after_columns
           Sample.columns eq_refl eq_refl eq_refl).
Defined.
End MoreHelpersOnSample.

(** ** More on the status column *)

Section MoreStatusColumn.
Import StatusColumn.
Context `{Models}.
Variable styles_root : string.

(** X15. The key of each icon is the [fieldName] of its section, and
    the font size of each icon is [columnIconSize] as it is: unlike the
    gap it has no default, so a missing size stays missing. *)
Theorem StatusColumn_keys_and_sizes properties status :
  List.map (fun icon => fst (fst icon))
           (icons (StatusColumn styles_root properties status))
  = List.map fieldName (sections status) /\
  Forall (fun icon => fontSize (snd icon) = columnIconSize properties)
         (icons (StatusColumn styles_root properties status)).
Proof.
  rewrite icons_StatusColumn, List.map_map. split; [done|].
  apply Forall_forall. intros icon Hicon.
  apply list_elem_of_In, in_map_iff in Hicon as (s & <- & _). reflexivity.
Qed.
End MoreStatusColumn.

(** ** The portfolios *)

Section MoreGetPortfolios.
Import DataAdapter Portfolios.
Context `{Config} `{PortfolioItems}.
Variable web_rows : string -> JS.promise (list IPortfolioItem).

(** X16. [getPortfolios] needs no setup and leaves none behind: on any
    adapter, also a new one, it returns a promise and leaves the fields
    alone. The promise settles with the request for the configuration
    list: it is rejected with the error of the request, or resolves to
    one portfolio per item, for the first 500 items and in their
    order. *)
Theorem getPortfolios_needs_no_setup st :
  exists p,
    getPortfolios web_rows st = (inr p, st) /\
    JS.settles p = JS.settles (web_rows CONFIG_LIST_NAME) /\
    match JS.outcome (web_rows CONFIG_LIST_NAME) with
    | inl e => JS.outcome p = inl e
    | inr items => JS.outcome p = inr (newPortfolio <$> take 500 items)
    end.
Proof.
  eexists. split; [reflexivity|]. split; [reflexivity|].
  unfold items_get, JS.then_. cbn [JS.outcome].
  destruct (JS.outcome (web_rows CONFIG_LIST_NAME)) as [e|items]; [done|].
  by rewrite JS_map_eq.
Qed.
End MoreGetPortfolios.
